(** * Chemical Equipment Visualizer: the upload, statistics and report core

    A shallow embedding of the Django backend of the repository:
    - [api/serializers.py]: [DatasetUploadSerializer.validate_file];
    - [api/utils.py]: [parse_csv_file], [calculate_statistics],
      [dataframe_to_json] and the tables of [generate_pdf_report];
    - [api/models.py]: [Dataset] and [get_statistics_summary];
    - [api/views.py]: [DatasetViewSet] ([retrieve], [upload], [destroy],
      [statistics]).

    Conventions of the model.
    - Python floats are idealised as rationals ([Q]); [NaN] is kept apart
      from Python's [None], because the code tells them apart.
    - A [DataFrame] is what [pd.read_csv] hands to the code: labels and rows
      of cells.  A cell is blank, a number, or text that is not a number.
      Labels are looked up at their first occurrence; a frame with two
      equal labels is outside the model.
    - [df[col].fillna(v, inplace=True)] is read as the code means it: the
      column of the frame is filled.
    - The database table is a list of rows with a primary key; a view runs
      in a monad that threads the table and lets a storage operation raise,
      without any rollback (the views open no transaction). *)

From Stdlib Require Import List Arith ZArith QArith Qabs Bool Lia Lqa.
From Stdlib Require Import Ascii String DecimalString.
From Stdlib Require Import Permutation Sorted.
Import ListNotations.

Local Close Scope Q_scope.
Local Open Scope string_scope.
Local Open Scope list_scope.
Local Open Scope nat_scope.

(** ** Python strings *)

Module PyStr.

(** [str.isspace] on ASCII: TAB..CR, FS..US and the space. *)
Definition is_space (c : ascii) : bool :=
  let n := nat_of_ascii c in
  ((9 <=? n) && (n <=? 13)) || ((28 <=? n) && (n <=? 32)).

Fixpoint lstrip_chars (l : list ascii) : list ascii :=
  match l with
  | c :: l' => if is_space c then lstrip_chars l' else l
  | [] => []
  end.

(** [str.strip()] *)
Definition strip (s : string) : string :=
  string_of_list_ascii
    (rev (lstrip_chars (rev (lstrip_chars (list_ascii_of_string s))))).

(** [s.replace(' ', '_')] *)
Fixpoint replace_space (s : string) : string :=
  match s with
  | EmptyString => EmptyString
  | String c s' =>
      String (if Ascii.eqb c " "%char then "_"%char else c) (replace_space s')
  end.

(** [s.endswith(suffix)] *)
Definition endswith (s suffix : string) : bool :=
  let n := String.length s in
  let k := String.length suffix in
  (k <=? n) && String.eqb (substring (n - k) k s) suffix.

(** [s[:n]] *)
Definition take (n : nat) (s : string) : string := substring 0 n s.

(** [', '.join(l)] *)
Fixpoint join (sep : string) (l : list string) : string :=
  match l with
  | [] => ""
  | [x] => x
  | x :: l' => x ++ sep ++ join sep l'
  end.

(** [x in l] for a list of strings *)
Definition mem (x : string) (l : list string) : bool :=
  existsb (String.eqb x) l.

(** [str(n)] for a non-negative integer *)
Definition of_nat (n : nat) : string := NilZero.string_of_uint (Nat.to_uint n).

Definition of_Z (z : Z) : string := NilZero.string_of_int (Z.to_int z).

End PyStr.

(** ** Python floats, idealised *)

Inductive pyfloat : Type :=
| NaN
| Fin (q : Q).

Module PyFloat.

(** Rounding to the nearest integer, ties to even. *)
Definition round_half_even (q : Q) : Z :=
  let n := Qnum q in
  let d := Zpos (Qden q) in
  let fl := (n / d)%Z in
  let r2 := (2 * (n mod d))%Z in
  if (r2 <? d)%Z then fl
  else if (d <? r2)%Z then (fl + 1)%Z
  else if Z.even fl then fl else (fl + 1)%Z.

Fixpoint zfill (width : nat) (s : string) : string :=
  match width - String.length s with
  | O => s
  | S _ =>
      match width with
      | O => s
      | S w => "0" ++ zfill w s
      end
  end.

(** [f"{q:.<digits>f}"] for a finite value *)
Definition format_fixed (digits : nat) (q : Q) : string :=
  let scale := (10 ^ Z.of_nat digits)%Z in
  let m := round_half_even (Qabs q * inject_Z scale)%Q in
  let sign := if Qlt_le_dec q 0%Q then "-" else "" in
  let whole := PyStr.of_Z (m / scale)%Z in
  match digits with
  | O => sign ++ whole
  | _ => sign ++ whole ++ "." ++ zfill digits (PyStr.of_Z (m mod scale)%Z)
  end.

(** [f"{x:.<digits>f}"] *)
Definition format (digits : nat) (x : pyfloat) : string :=
  match x with
  | NaN => "nan"
  | Fin q => format_fixed digits q
  end.

(** [bool(x)]: a float is falsy exactly when it is zero; [nan] is truthy. *)
Definition truthy (x : pyfloat) : bool :=
  match x with
  | NaN => true
  | Fin q => negb (Qeq_bool q 0%Q)
  end.

(** [round(x, 2)] *)
Definition round2 (x : pyfloat) : pyfloat :=
  match x with
  | NaN => NaN
  | Fin q => Fin (inject_Z (round_half_even (q * 100)) / 100)%Q
  end.

End PyFloat.

(** [if x] on an [Optional[float]]: [None] and [0.0] are both falsy. *)
Definition truthy_opt (x : option pyfloat) : bool :=
  match x with
  | None => false
  | Some v => PyFloat.truthy v
  end.

(** ** Sorting as [sorted(..., reverse=True)] and [order_by('-field')] do *)

Section SortDesc.
Context {A : Type} (key : A -> Z).

(** Stable insertion in descending order of [key]: the new element goes in
    front of the first element whose key is not larger. *)
Fixpoint insert_desc (x : A) (l : list A) : list A :=
  match l with
  | [] => [x]
  | y :: l' => if (key y <=? key x)%Z then x :: l else y :: insert_desc x l'
  end.

Fixpoint sort_desc (l : list A) : list A :=
  match l with
  | [] => []
  | x :: l' => insert_desc x (sort_desc l')
  end.

Definition ge_key (a b : A) : Prop := (key b <= key a)%Z.

End SortDesc.

(** ** Exceptions and results *)

Inductive exn : Type :=
| ValueError (msg : string)
| TypeError
| KeyError (key : string)
| UnicodeDecodeError
| DoesNotExist
| StorageError.

Definition result (A : Type) : Type := (exn + A)%type.

Definition rbind {A B : Type} (r : result A) (k : A -> result B) : result B :=
  match r with
  | inl e => inl e
  | inr a => k a
  end.

(** ** The pandas data frame *)

Inductive cell : Type :=
| NA                 (* NaN / None: a blank field *)
| Num (q : Q)        (* a number *)
| Text (s : string). (* text that is not a number *)

Record DataFrame : Type := mkFrame {
  df_columns : list string;
  df_rows : list (list cell)
}.

Module Pandas.

Definition isna (c : cell) : bool :=
  match c with NA => true | _ => false end.

Definition cell_eqb (a b : cell) : bool :=
  match a, b with
  | NA, NA => true
  | Num x, Num y => Qeq_bool x y
  | Text s, Text t => String.eqb s t
  | _, _ => false
  end.

(** [len(df)] *)
Definition len (df : DataFrame) : nat := List.length (df_rows df).

(** [df.empty]: one of the two axes has length 0. *)
Definition empty (df : DataFrame) : bool :=
  (List.length (df_columns df) =? 0) || (len df =? 0).

(** Position of the first label equal to [col]. *)
Fixpoint col_index (col : string) (cols : list string) : option nat :=
  match cols with
  | [] => None
  | c :: cols' =>
      if String.eqb col c then Some 0
      else option_map S (col_index col cols')
  end.

(** A short row reads as blank in the columns it lacks. *)
Definition at_col (i : nat) (row : list cell) : cell := nth i row NA.

Fixpoint put (i : nat) (v : cell) (row : list cell) : list cell :=
  match i, row with
  | O, [] => [v]
  | O, _ :: row' => v :: row'
  | S i', [] => NA :: put i' v []
  | S i', c :: row' => c :: put i' v row'
  end.

Definition series (i : nat) (df : DataFrame) : list cell :=
  map (at_col i) (df_rows df).

(** [df[col]]; raises [KeyError] when the label is absent. *)
Definition getitem (df : DataFrame) (col : string) : result (list cell) :=
  match col_index col (df_columns df) with
  | Some i => inr (series i df)
  | None => inl (KeyError col)
  end.

(** An element-wise update of column [i], as [df[col] = f(df[col])]. *)
Definition map_column (i : nat) (f : cell -> cell) (df : DataFrame) : DataFrame :=
  mkFrame (df_columns df)
          (map (fun row => put i (f (at_col i row)) row) (df_rows df)).

(** [df.columns = df.columns.str.strip()] *)
Definition strip_columns (df : DataFrame) : DataFrame :=
  mkFrame (map PyStr.strip (df_columns df)) (df_rows df).

(** [pd.to_numeric(s, errors='raise')]: only whether it raises matters to
    the caller, which drops the converted series. *)
Definition to_numeric_raise (s : list cell) : result unit :=
  if forallb (fun c => match c with Text _ => false | _ => true end) s
  then inr tt
  else inl (ValueError "Unable to parse string").

(** [pd.to_numeric(s, errors='coerce')], on one element *)
Definition to_numeric_coerce (c : cell) : cell :=
  match c with
  | Text _ => NA
  | _ => c
  end.

(** The numbers of a series, blanks skipped; text has no place in a mean. *)
Fixpoint known (s : list cell) : option (list Q) :=
  match s with
  | [] => Some []
  | NA :: s' => known s'
  | Num q :: s' => option_map (cons q) (known s')
  | Text _ :: _ => None
  end.

Definition Qsum (l : list Q) : Q := fold_right Qplus 0%Q l.

(** [s.mean()]: [skipna=True]; [nan] when nothing is known. *)
Definition mean (s : list cell) : result pyfloat :=
  match known s with
  | None => inl TypeError
  | Some [] => inr NaN
  | Some l => inr (Fin (Qsum l / inject_Z (Z.of_nat (List.length l)))%Q)
  end.

(** [s.fillna(v)] on one element; filling with [nan] changes nothing. *)
Definition fillna (v : pyfloat) (c : cell) : cell :=
  match c, v with
  | NA, Fin q => Num q
  | _, _ => c
  end.

(** [s.fillna('Unknown')] on one element *)
Definition fillna_text (v : string) (c : cell) : cell :=
  match c with
  | NA => Text v
  | _ => c
  end.

(** [s.isna().sum()] *)
Definition isna_sum (s : list cell) : nat := List.length (filter isna s).

(** One more occurrence of [k] in a table of counts. *)
Fixpoint bump (k : cell) (acc : list (cell * nat)) : list (cell * nat) :=
  match acc with
  | [] => [(k, 1)]
  | (k', n) :: acc' =>
      if cell_eqb k k' then (k', S n) :: acc' else (k', n) :: bump k acc'
  end.

Definition tally (s : list cell) : list (cell * nat) :=
  fold_left (fun acc c => if isna c then acc else bump c acc) s [].

(** [s.value_counts().to_dict()]: blanks are dropped, the most frequent
    value comes first. *)
Definition value_counts (s : list cell) : list (cell * nat) :=
  sort_desc (fun p => Z.of_nat (snd p)) (tally s).

End Pandas.

(** ** serializers.py: [DatasetUploadSerializer] *)

(** What [pd.read_csv(StringIO(file.read().decode('utf-8')))] yields. *)
Inductive csv_read : Type :=
| Frame (df : DataFrame)
| EmptyDataError
| ParserError
| DecodeError.

Record UploadedFile : Type := mkFile {
  file_name : string;
  file_size : Z;
  file_csv : csv_read
}.

(** What is raised inside the [try] block of [validate_file]. *)
Inductive Raised : Type :=
| EmptyFile
| MissingColumns (missing found : list string)
| NotNumeric (col : string)
| TooManyMissing (col : string) (missing_pct : Q)
| Uncaught (e : exn).

(** The [serializers.ValidationError] that leaves [validate_file]. *)
Inductive ValidationError : Type :=
| InvalidFormat               (* "Invalid file format. Please upload a CSV file." *)
| SizeExceeded                (* "File size exceeds 5MB limit." *)
| EmptyOrCorrupted            (* "CSV file is empty or corrupted." *)
| UnableToParse               (* "Unable to parse CSV file. ..." *)
| ProcessingError (r : Raised). (* "Error processing CSV file: {str(e)}" *)

Module DatasetUploadSerializer.

Definition REQUIRED_COLUMNS : list string :=
  ["Equipment_Name"; "Type"; "Flowrate"; "Pressure"; "Temperature"].

Definition REQUIRED_COLUMNS_ALT : list string :=
  ["Equipment Name"; "Type"; "Flowrate"; "Pressure"; "Temperature"].

Definition numeric_columns : list string :=
  ["Flowrate"; "Pressure"; "Temperature"].

Definition normalized_columns (df : DataFrame) : list string :=
  map PyStr.replace_space (df_columns df).

(** [set(self.REQUIRED_COLUMNS) - set(normalized_columns)] *)
Definition missing_columns (df : DataFrame) : list string :=
  filter (fun c => negb (PyStr.mem c (normalized_columns df))) REQUIRED_COLUMNS.

(** The loop over [numeric_columns]; [KeyError] is not among the caught
    exceptions and goes through. *)
Fixpoint check_numeric (df : DataFrame) (cols : list string) : Raised + unit :=
  match cols with
  | [] => inr tt
  | col :: cols' =>
      match Pandas.getitem df col with
      | inl e => inl (Uncaught e)
      | inr s =>
          match Pandas.to_numeric_raise s with
          | inl _ => inl (NotNumeric col)
          | inr _ => check_numeric df cols'
          end
      end
  end.

(** [df[col].isna().sum() / len(df) * 100] *)
Definition missing_pct (s : list cell) (df : DataFrame) : Q :=
  (inject_Z (Z.of_nat (Pandas.isna_sum s))
     / inject_Z (Z.of_nat (Pandas.len df)) * 100)%Q.

(** The loop over [REQUIRED_COLUMNS]. *)
Fixpoint check_missing (df : DataFrame) (cols : list string) : Raised + unit :=
  match cols with
  | [] => inr tt
  | col :: cols' =>
      match Pandas.getitem df col with
      | inl e => inl (Uncaught e)
      | inr s =>
          let pct := missing_pct s df in
          if Qlt_le_dec 50 pct then inl (TooManyMissing col pct)
          else check_missing df cols'
      end
  end.

(** The body of the [try] block once the frame is read. *)
Definition check_frame (df0 : DataFrame) : Raised + unit :=
  if Pandas.empty df0 then inl EmptyFile
  else
    let df := Pandas.strip_columns df0 in
    match missing_columns df with
    | _ :: _ as missing => inl (MissingColumns missing (df_columns df))
    | [] =>
        match check_numeric df numeric_columns with
        | inl r => inl r
        | inr _ => check_missing df REQUIRED_COLUMNS
        end
    end.

Definition validate_file (file : UploadedFile) : ValidationError + UploadedFile :=
  if negb (PyStr.endswith (file_name file) ".csv") then inl InvalidFormat
  else if (5 * 1024 * 1024 <? file_size file)%Z then inl SizeExceeded
  else
    match file_csv file with
    | EmptyDataError => inl EmptyOrCorrupted
    | ParserError => inl UnableToParse
    | DecodeError => inl (ProcessingError (Uncaught UnicodeDecodeError))
    | Frame df0 =>
        match check_frame df0 with
        | inl r => inl (ProcessingError r)
        | inr _ => inr file
        end
    end.

End DatasetUploadSerializer.

(** ** utils.py: parsing and statistics *)

Record Metadata : Type := mkMetadata {
  total_rows : nat;
  columns : list string;
  meta_file_size : Z;
  meta_file_name : string
}.

Record Stats : Type := mkStats {
  st_total_equipment : nat;
  st_avg_flowrate : option pyfloat;
  st_avg_pressure : option pyfloat;
  st_avg_temperature : option pyfloat;
  st_equipment_distribution : list (cell * nat)
}.

Module Utils.

(** One turn of the loop over [numeric_cols]: coerce, then fill the blanks
    with the mean of the column. *)
Definition fill_numeric (df : DataFrame) (col : string) : result DataFrame :=
  match Pandas.col_index col (df_columns df) with
  | None => inr df
  | Some i =>
      let df1 := Pandas.map_column i Pandas.to_numeric_coerce df in
      rbind (Pandas.mean (Pandas.series i df1)) (fun m =>
      inr (Pandas.map_column i (Pandas.fillna m) df1))
  end.

(** One turn of the loop over [string_cols]. *)
Definition fill_string (df : DataFrame) (col : string) : DataFrame :=
  match Pandas.col_index col (df_columns df) with
  | None => df
  | Some i => Pandas.map_column i (Pandas.fillna_text "Unknown") df
  end.

Definition numeric_cols : list string := ["Flowrate"; "Pressure"; "Temperature"].
Definition string_cols : list string := ["Equipment_Name"; "Type"].

Fixpoint fill_numeric_all (df : DataFrame) (cols : list string) : result DataFrame :=
  match cols with
  | [] => inr df
  | col :: cols' => rbind (fill_numeric df col) (fun df' => fill_numeric_all df' cols')
  end.

(** The body of the [try] block of [parse_csv_file]. *)
Definition parse_frame (file : UploadedFile) : result (DataFrame * Metadata) :=
  match file_csv file with
  | Frame df0 =>
      let df := Pandas.strip_columns df0 in
      rbind (fill_numeric_all df numeric_cols) (fun df =>
      let df := fold_left fill_string string_cols df in
      inr (df, mkMetadata (Pandas.len df) (df_columns df)
                          (file_size file) (file_name file)))
  | EmptyDataError => inl (ValueError "No columns to parse from file")
  | ParserError => inl (ValueError "Error tokenizing data")
  | DecodeError => inl UnicodeDecodeError
  end.

(** [parse_csv_file]: every exception leaves as a [ValueError]. *)
Definition parse_csv_file (file : UploadedFile) : result (DataFrame * Metadata) :=
  match parse_frame file with
  | inl _ => inl (ValueError "Error parsing CSV file")
  | inr r => inr r
  end.

(** [float(df[col].mean()) if col in df.columns else None] *)
Definition avg_of (df : DataFrame) (col : string) : result (option pyfloat) :=
  match Pandas.col_index col (df_columns df) with
  | None => inr None
  | Some i => rbind (Pandas.mean (Pandas.series i df)) (fun m => inr (Some m))
  end.

Definition calculate_statistics (df : DataFrame) : result Stats :=
  rbind (avg_of df "Flowrate") (fun avg_flowrate =>
  rbind (avg_of df "Pressure") (fun avg_pressure =>
  rbind (avg_of df "Temperature") (fun avg_temperature =>
  inr (mkStats (Pandas.len df) avg_flowrate avg_pressure avg_temperature
         match Pandas.col_index "Type" (df_columns df) with
         | Some i => Pandas.value_counts (Pandas.series i df)
         | None => []
         end)))).

(** [dataframe_to_json]: one dictionary per row, [nan] already reads as
    [None] in a [cell]. *)
Definition dataframe_to_json (df : DataFrame) : list (list (string * cell)) :=
  map (fun row =>
         map (fun ic => (snd ic, Pandas.at_col (fst ic) row))
             (combine (seq 0 (List.length (df_columns df))) (df_columns df)))
      (df_rows df).

End Utils.

(** ** models.py: [Dataset] *)

Record Dataset : Type := mkDataset {
  pk : nat;
  user : nat;
  name : string;
  file : option string;        (* the [FieldFile]; [None] once deleted *)
  uploaded_at : Z;
  data_json : list (list (string * cell));
  total_equipment : nat;
  avg_flowrate : option pyfloat;
  avg_pressure : option pyfloat;
  avg_temperature : option pyfloat;
  equipment_distribution : list (string * nat)
}.

Record Summary : Type := mkSummary {
  sm_total_equipment : nat;
  sm_avg_flowrate : option pyfloat;
  sm_avg_pressure : option pyfloat;
  sm_avg_temperature : option pyfloat;
  sm_equipment_distribution : list (string * nat)
}.

Module Models.

(** [round(x, 2) if x else None] *)
Definition rounded (x : option pyfloat) : option pyfloat :=
  if truthy_opt x then option_map PyFloat.round2 x else None.

Definition get_statistics_summary (self : Dataset) : Summary :=
  mkSummary (total_equipment self)
            (rounded (avg_flowrate self))
            (rounded (avg_pressure self))
            (rounded (avg_temperature self))
            (equipment_distribution self).

Definition set_file (self : Dataset) (f : option string) : Dataset :=
  mkDataset (pk self) (user self) (name self) f (uploaded_at self)
            (data_json self) (total_equipment self) (avg_flowrate self)
            (avg_pressure self) (avg_temperature self)
            (equipment_distribution self).

End Models.

(** ** utils.py: the tables of [generate_pdf_report] *)

Module Report.

(** [f"{x:.2f}" if x else 'N/A'] *)
Definition avg_text (x : option pyfloat) : string :=
  match x with
  | Some v => if PyFloat.truthy v then PyFloat.format 2 v else "N/A"
  | None => "N/A"
  end.

Definition stats_data (dataset : Dataset) : list (list string) :=
  [ ["Metric"; "Value"];
    ["Total Equipment Count"; PyStr.of_nat (total_equipment dataset)];
    ["Average Flowrate"; avg_text (avg_flowrate dataset)];
    ["Average Pressure"; avg_text (avg_pressure dataset)];
    ["Average Temperature"; avg_text (avg_temperature dataset)] ].

(** [sum(dataset.equipment_distribution.values())] *)
Definition total_of (dist : list (string * nat)) : nat :=
  list_sum (map snd dist).

(** [(count / total * 100) if total > 0 else 0] *)
Definition percentage (count total : nat) : Q :=
  if 0 <? total
  then (inject_Z (Z.of_nat count) / inject_Z (Z.of_nat total) * 100)%Q
  else 0%Q.

Definition dist_row (total : nat) (item : string * nat) : list string :=
  [fst item; PyStr.of_nat (snd item);
   (PyFloat.format_fixed 1 (percentage (snd item) total) ++ "%")%string].

(** [sorted(dist.items(), key=lambda x: x[1], reverse=True)] *)
Definition by_count_desc (dist : list (string * nat)) : list (string * nat) :=
  sort_desc (fun item => Z.of_nat (snd item)) dist.

(** The rows appended to [dist_data] after its header. *)
Definition dist_rows (dist : list (string * nat)) : list (list string) :=
  map (dist_row (total_of dist)) (by_count_desc dist).

(** The distribution table; [None] when the section is left out. *)
Definition dist_data (dataset : Dataset) : option (list (list string)) :=
  match equipment_distribution dataset with
  | [] => None
  | dist => Some (["Equipment Type"; "Count"; "Percentage"] :: dist_rows dist)
  end.

End Report.

(** ** The database, and the monad a view runs in *)

(** The [api_dataset] table in insertion order, the sequence of its primary
    key, and what the storage answers to the coming write operations
    ([true]: the operation raises; an exhausted list: no more failures). *)
Record World : Type := mkWorld {
  table : list Dataset;
  next_pk : nat;
  outcomes : list bool
}.

Definition M (A : Type) : Type := World -> result A * World.

Definition ret {A : Type} (a : A) : M A := fun w => (inr a, w).

Definition raise {A : Type} (e : exn) : M A := fun w => (inl e, w).

(** An exception ends the computation; what was written stays written. *)
Definition bind {A B : Type} (c : M A) (k : A -> M B) : M B :=
  fun w =>
    match c w with
    | (inl e, w') => (inl e, w')
    | (inr a, w') => k a w'
    end.

Definition try_except {A : Type} (c : M A) (handler : exn -> M A) : M A :=
  fun w =>
    match c w with
    | (inl e, w') => handler e w'
    | (inr a, w') => (inr a, w')
    end.

Definition lift {A : Type} (r : result A) : M A := fun w => (r, w).

Declare Scope view_scope.
Delimit Scope view_scope with view.
Notation "x <- c ;; k" := (bind c (fun x => k))
  (at level 61, c at next level, right associativity) : view_scope.
Notation "c ;;; k" := (bind c (fun _ => k))
  (at level 61, right associativity) : view_scope.

(** Modelled from the spec: [settings.MAX_DATASETS_PER_USER], whose module
    is not among the sources; the retention cap is 5. *)
Definition MAX_DATASETS_PER_USER : nat := 5.

Module ORM.

Definition get_table : M (list Dataset) := fun w => (inr (table w), w).

Definition set_table (t : list Dataset) : M unit :=
  fun w => (inr tt, mkWorld t (next_pk w) (outcomes w)).

(** A write reaches the storage, which may refuse it. *)
Definition storage_op : M unit :=
  fun w =>
    match outcomes w with
    | [] => (inr tt, w)
    | fails :: rest =>
        (if fails then inl StorageError else inr tt,
         mkWorld (table w) (next_pk w) rest)
    end.

Definition owned_by (u : nat) (d : Dataset) : bool := user d =? u.

Definition has_pk (k : nat) (d : Dataset) : bool := pk d =? k.

(** [Dataset.objects.filter(user=u).order_by('-uploaded_at')] *)
Definition filter_user_newest_first (u : nat) (t : list Dataset) : list Dataset :=
  sort_desc uploaded_at (filter (owned_by u) t).

(** [Dataset.objects.get(pk=k, user=u)] *)
Definition objects_get (k u : nat) : M Dataset :=
  fun w =>
    match find (fun d => has_pk k d && owned_by u d) (table w) with
    | Some d => (inr d, w)
    | None => (inl DoesNotExist, w)
    end.

(** [Dataset.objects.create(...)]: the row gets the next primary key. *)
Definition objects_create (fields : nat -> Dataset) : M Dataset :=
  (_ <- storage_op ;;
   fun w =>
     let d := fields (next_pk w) in
     (inr d, mkWorld (table w ++ [d]) (S (next_pk w)) (outcomes w)))%view.

(** [instance.save()]: update the row of that key, insert when none has it. *)
Definition save (d : Dataset) : M unit :=
  (t <- get_table ;;
   if existsb (has_pk (pk d)) t
   then set_table (map (fun r => if has_pk (pk d) r then d else r) t)
   else set_table (t ++ [d]))%view.

(** [instance.file.delete()], with its default [save=True]; nothing
    happens when the field holds no file.  Gives the instance back as the
    call leaves it. *)
Definition file_delete (d : Dataset) : M Dataset :=
  match file d with
  | None => ret d
  | Some _ =>
      (_ <- storage_op ;;
       let d' := Models.set_file d None in
       _ <- save d' ;;
       ret d')%view
  end.

(** [instance.delete()] *)
Definition delete (d : Dataset) : M unit :=
  (_ <- storage_op ;;
   t <- get_table ;;
   set_table (filter (fun r => negb (has_pk (pk d) r)) t))%view.

End ORM.

(** ** views.py: [DatasetViewSet] *)

Record Request : Type := mkRequest {
  req_user : nat;          (* [request.user] *)
  req_now : Z;             (* [timezone.now()] when the row is created *)
  req_file : UploadedFile  (* [request.data['file']] *)
}.

Inductive Body : Type :=
| Errors (e : ValidationError)                 (* [serializer.errors] *)
| Error (msg : string)                         (* [{'error': msg}] *)
| Message (msg : string)                       (* [{'message': msg}] *)
| Detail (d : Dataset) (statistics : Summary)  (* [DatasetDetailSerializer] *)
| Uploaded (d : Dataset) (statistics : Summary)
| Statistics (s : Summary).

Record Response : Type := mkResponse {
  status : nat;
  body : Body
}.

Section Views.

(** How a number reads as the key of a JSON object. *)
Variable number_key : Q -> string.

Definition json_key (c : cell) : string :=
  match c with
  | Text s => s
  | Num q => number_key q
  | NA => "null"
  end.

Definition not_found : Response := mkResponse 404 (Error "Dataset not found").

Definition on_does_not_exist (e : exn) : M Response :=
  match e with
  | DoesNotExist => ret not_found
  | _ => raise e
  end.

Definition retrieve (u : nat) (k : nat) : M Response :=
  try_except
    (dataset <- ORM.objects_get k u ;;
     ret (mkResponse 200 (Detail dataset (Models.get_statistics_summary dataset))))%view
    on_does_not_exist.

(** The loop that deletes the datasets beyond the cap. *)
Fixpoint delete_each (datasets_to_delete : list Dataset) : M unit :=
  match datasets_to_delete with
  | [] => ret tt
  | old_dataset :: rest =>
      (old_dataset' <- ORM.file_delete old_dataset ;;
       _ <- ORM.delete old_dataset' ;;
       delete_each rest)%view
  end.

Definition new_dataset (request : Request) (data : list (list (string * cell)))
           (stats : Stats) (k : nat) : Dataset :=
  mkDataset k (req_user request) (file_name (req_file request))
            (Some (file_name (req_file request))) (req_now request)
            data (st_total_equipment stats)
            (st_avg_flowrate stats) (st_avg_pressure stats)
            (st_avg_temperature stats)
            (map (fun kv => (json_key (fst kv), snd kv))
                 (st_equipment_distribution stats)).

Definition upload_handler (e : exn) : M Response :=
  match e with
  | ValueError msg => ret (mkResponse 400 (Error msg))
  | _ => ret (mkResponse 500
                (Error "An error occurred while processing the file. Please try again."))
  end.

Definition upload (request : Request) : M Response :=
  match DatasetUploadSerializer.validate_file (req_file request) with
  | inl errors => ret (mkResponse 400 (Errors errors))
  | inr csv_file =>
      try_except
        (parsed <- lift (Utils.parse_csv_file csv_file) ;;
         stats <- lift (Utils.calculate_statistics (fst parsed)) ;;
         let data := Utils.dataframe_to_json (fst parsed) in
         dataset <- ORM.objects_create (new_dataset request data stats) ;;
         t <- ORM.get_table ;;
         let user_datasets := ORM.filter_user_newest_first (req_user request) t in
         _ <- (if MAX_DATASETS_PER_USER <? List.length user_datasets
               then delete_each (skipn MAX_DATASETS_PER_USER user_datasets)
               else ret tt) ;;
         ret (mkResponse 201
                (Uploaded dataset (Models.get_statistics_summary dataset))))%view
        upload_handler
  end.

Definition destroy (u : nat) (k : nat) : M Response :=
  try_except
    (dataset <- ORM.objects_get k u ;;
     dataset' <- ORM.file_delete dataset ;;
     _ <- ORM.delete dataset' ;;
     ret (mkResponse 204 (Message "Dataset deleted successfully")))%view
    on_does_not_exist.

Definition statistics (u : nat) (k : nat) : M Response :=
  try_except
    (dataset <- ORM.objects_get k u ;;
     ret (mkResponse 200 (Statistics (Models.get_statistics_summary dataset))))%view
    on_does_not_exist.

End Views.

(** ** Vocabulary of the statements *)

Module Spec.

(** The arithmetic mean of a list of numbers. *)
Definition arithmetic_mean (l : list Q) : Q :=
  (Pandas.Qsum l / inject_Z (Z.of_nat (List.length l)))%Q.

(** The values of a column in the rows where it is known. *)
Definition known_values (s : list cell) : list Q :=
  flat_map (fun c => match c with Num q => [q] | _ => [] end) s.

(** A cell that holds no text. *)
Definition numeric_or_blank (c : cell) : Prop :=
  match c with Text _ => False | _ => True end.

(** What mean imputation makes of a cell of the column [s]. *)
Definition imputed (s : list cell) (c : cell) : cell :=
  match c with
  | Num q => Num q
  | _ =>
      match known_values s with
      | [] => NA
      | l => Num (arithmetic_mean l)
      end
  end.

(** Primary keys identify rows, and the sequence is ahead of them. *)
Definition store_wf (w : World) : Prop :=
  NoDup (map pk (table w)) /\ Forall (fun d => pk d < next_pk w) (table w).

Definition owned (u : nat) (t : list Dataset) : list Dataset :=
  filter (ORM.owned_by u) t.


End Spec.


(** The mean of a column over the rows where it is known; [NaN] when it is
    known nowhere. *)
Definition mean_of_known (s : list cell) : pyfloat :=
  match Spec.known_values s with
  | [] => NaN
  | l => Fin (Spec.arithmetic_mean l)
  end.

(** Whether the label [col] names the column at position [j]. *)
Definition is_at (col : string) (cols : list string) (j : nat) : bool :=
  match Pandas.col_index col cols with
  | Some i => i =? j
  | None => false
  end.


(** The row [r] has the key of none of [l]. *)
Definition not_among (l : list Dataset) (r : Dataset) : bool :=
  negb (existsb (fun o => ORM.has_pk (pk o) r) l).

(** The world once [Dataset.objects.create] has stored the row [d]. *)
Definition created (w : World) (d : Dataset) : World :=
  mkWorld (table w ++ [d]) (S (next_pk w)) (tl (outcomes w)).

(** The datasets of user [u] beyond the cap, newest first, in the table [t]. *)
Definition beyond_cap (u : nat) (t : list Dataset) : list Dataset :=
  skipn MAX_DATASETS_PER_USER (ORM.filter_user_newest_first u t).

(** ** Sample inputs *)

Module Samples.

Definition row1 : list cell := [Text "Pump-1"; Text "Pump"; Num 10; Num 2; Num 30].

(** A one-line CSV under the header [Equipment Name,Type,Flowrate,...]. *)
Definition space_variant : UploadedFile :=
  mkFile "equipment.csv" 64
    (Frame (mkFrame ["Equipment Name"; "Type"; "Flowrate"; "Pressure"; "Temperature"]
                    [row1])).

(** The same line under [Equipment_Name,Type,Flowrate,...]. *)
Definition underscore_variant : UploadedFile :=
  mkFile "equipment.csv" 64
    (Frame (mkFrame ["Equipment_Name"; "Type"; "Flowrate"; "Pressure"; "Temperature"]
                    [row1])).


(** A dataset whose flow rates average to 0.0. *)
Definition zero_flow : Dataset :=
  mkDataset 2 1 "idle.csv" (Some "idle.csv") 2000 [] 2
            (Some (Fin 0)) (Some (Fin 2)) None
            [("Pump", 2)].

(** Three records: a blank type and a blank flow rate in the second, a
    blank temperature in the third.  The flow rates are 10, blank, 30. *)
Definition sparse_frame : DataFrame :=
  mkFrame ["Equipment_Name"; "Type"; "Flowrate"; "Pressure"; "Temperature"]
          [ [Text "Pump-1"; Text "Pump"; Num 10; Num 2; Num 30];
            [Text "Valve-1"; NA; NA; Num 4; Num 50];
            [Text "Pump-2"; Text "Pump"; Num 30; Num 6; NA] ].

Definition sparse : UploadedFile := mkFile "sparse.csv" 120 (Frame sparse_frame).


(** Three records without a temperature column. *)
Definition no_temperature : DataFrame :=
  mkFrame ["Equipment_Name"; "Type"; "Flowrate"; "Pressure"]
          [ [Text "Pump-1"; Text "Pump"; Num 10; Num 2];
            [Text "Valve-1"; Text "Valve"; Num 20; Num 4];
            [Text "Pump-2"; Text "Pump"; Num 30; Num 6] ].

Definition stored (k u : nat) (t : Z) : Dataset :=
  mkDataset k u "old.csv" (Some "old.csv") t [] 1
            (Some (Fin 10)) (Some (Fin 2)) (Some (Fin 30)) [("Pump", 1)].

(** User 1 owns five datasets, user 2 owns one. *)
Definition full_table : list Dataset :=
  [stored 1 1 100; stored 2 1 200; stored 3 2 250;
   stored 4 1 300; stored 5 1 400; stored 6 1 500].

(** The storage answers every write. *)
Definition full_world : World := mkWorld full_table 7 [].

(** The storage answers the first write and refuses the second. *)
Definition failing_world : World := mkWorld full_table 7 [false; true].

(** Nobody has stored anything. *)
Definition empty_world : World := mkWorld [] 1 [].

Definition request1 : Request := mkRequest 1 600 sparse.

(** A rendering of numeric keys, for the runs below. *)
Definition plain_key (q : Q) : string := PyFloat.format_fixed 1 q.

End Samples.

(** ** utils.py: the charts of the report *)

Module Charts.

Record BarChart : Type := mkBarChart {
  categoryNames : list string;
  bar_data : list nat;
  valueMin : Q;
  valueMax : Q
}.

Record PieChart : Type := mkPieChart {
  pie_labels : list string;
  pie_data : list nat;
  slice_colors : list string
}.

(** [data_dict[k]] *)
Fixpoint getitem (data_dict : list (string * nat)) (k : string) : result nat :=
  match data_dict with
  | [] => inl (KeyError k)
  | (k', v) :: rest => if String.eqb k k' then inr v else getitem rest k
  end.

(** [[data_dict[k] for k in labels]] *)
Fixpoint getitems (data_dict : list (string * nat)) (labels : list string)
  : result (list nat) :=
  match labels with
  | [] => inr []
  | k :: labels' =>
      rbind (getitem data_dict k) (fun v =>
      rbind (getitems data_dict labels') (fun vs => inr (v :: vs)))
  end.

(** [max(values)] on counts *)
Definition py_max (values : list nat) : nat := fold_right Nat.max 0 values.

Definition create_bar_chart (data_dict : list (string * nat)) : result BarChart :=
  let labels := firstn 10 (map fst data_dict) in
  rbind (getitems data_dict labels) (fun values =>
  inr (mkBarChart labels values 0%Q
         match values with
         | [] => 10%Q
         | _ => (inject_Z (Z.of_nat (py_max values)) * (12 # 10))%Q
         end)).

Definition colors_list : list string :=
  ["#4A90E2"; "#50C878"; "#FFB347"; "#FF6B6B";
   "#9B59B6"; "#3498DB"; "#E74C3C"; "#F39C12"].

Definition create_pie_chart (data_dict : list (string * nat)) : result PieChart :=
  let labels := firstn 8 (map fst data_dict) in
  rbind (getitems data_dict labels) (fun values =>
  inr (mkPieChart labels values (firstn (List.length values) colors_list))).

End Charts.

(** ** models.py: the other methods of [Dataset] *)

Module Models2.

(** [get_data_preview]: [data_json] is a list in this model. *)
Definition get_data_preview (self : Dataset) (limit : nat) : list (list (string * cell)) :=
  firstn limit (data_json self).

(** The property [record_count]. *)
Definition record_count (self : Dataset) : nat := List.length (data_json self).

End Models2.

(** ** utils.py: [generate_pdf_report]; views.py: [list] and [download_pdf] *)

(** What is appended to [elements]. *)
Inductive Flowable : Type :=
| Paragraph (text : string) (style : string)
| Spacer (width height : nat)
| Table (data : list (list string))
| Drawing (chart : Charts.BarChart).

(** One item of [DatasetListSerializer]. *)
Record ListItem : Type := mkListItem {
  li_id : nat;
  li_name : string;
  li_user : string;
  li_uploaded_at : Z;
  li_total_equipment : nat;
  li_avg_flowrate : option pyfloat;
  li_avg_pressure : option pyfloat;
  li_avg_temperature : option pyfloat;
  li_equipment_distribution : list (string * nat);
  li_record_count : nat
}.

(** The body of the answer of [list]. *)
Record Listing : Type := mkListing {
  count : nat;
  results : list ListItem
}.

(** What [download_pdf] answers: the file, or a JSON error. *)
Inductive PdfResponse : Type :=
| PdfFile (filename : string) (elements : list Flowable)
| Plain (r : Response).

Section Rendering.

(** [str(x)] for a number. *)
Variable number_str : Q -> string.

(** [t.strftime(fmt)] *)
Variable strftime : string -> Z -> string.

(** [user.username] *)
Variable username : nat -> string.

(** [str(v)] for a value of a record. *)
Definition py_str (v : cell) : string :=
  match v with
  | Text s => s
  | Num q => number_str q
  | NA => "None"
  end.

(** [record.get(key)] *)
Fixpoint record_get (key : string) (record : list (string * cell)) : option cell :=
  match record with
  | [] => None
  | (k, v) :: rest => if String.eqb key k then Some v else record_get key rest
  end.

(** [str(record.get(key, 'N/A'))[:n]] *)
Definition text_field (n : nat) (key : string) (record : list (string * cell)) : string :=
  PyStr.take n (match record_get key record with
                | Some v => py_str v
                | None => "N/A"
                end).

(** [f"{record.get(key, 0):.1f}"]: [None] has no such format, nor has text. *)
Definition number_field (key : string) (record : list (string * cell)) : result string :=
  match record_get key record with
  | None => inr "0.0"
  | Some (Num q) => inr (PyFloat.format_fixed 1 q)
  | Some NA => inl TypeError
  | Some (Text _) => inl (ValueError "Unknown format code 'f' for object of type 'str'")
  end.

Definition preview_row (record : list (string * cell)) : result (list string) :=
  rbind (number_field "Flowrate" record) (fun flowrate =>
  rbind (number_field "Pressure" record) (fun pressure =>
  rbind (number_field "Temperature" record) (fun temperature =>
  inr [text_field 20 "Equipment_Name" record; text_field 15 "Type" record;
       flowrate; pressure; temperature]))).

(** The loop over [data_list]. *)
Fixpoint preview_rows (data_list : list (list (string * cell))) : result (list (list string)) :=
  match data_list with
  | [] => inr []
  | record :: rest =>
      rbind (preview_row record) (fun row =>
      rbind (preview_rows rest) (fun rows => inr (row :: rows)))
  end.

Definition preview_data (dataset : Dataset) : result (list (list string)) :=
  rbind (preview_rows (firstn 10 (data_json dataset))) (fun rows =>
  inr (["Equipment"; "Type"; "Flowrate"; "Pressure"; "Temperature"] :: rows)).

Definition metadata_data (dataset : Dataset) : list (list string) :=
  [ ["Dataset Name:"; name dataset];
    ["Upload Date:"; strftime "%Y-%m-%d %H:%M:%S" (uploaded_at dataset)];
    ["Total Equipment:"; PyStr.of_nat (total_equipment dataset)];
    ["Uploaded By:"; username (user dataset)] ].

(** The section of the distribution: nothing for an empty distribution. *)
Definition distribution_section (dataset : Dataset) : result (list Flowable) :=
  match Report.dist_data dataset with
  | None => inr []
  | Some dist_data =>
      rbind (Charts.create_bar_chart (equipment_distribution dataset)) (fun bar_chart =>
      inr [ Paragraph "Equipment Type Distribution" "CustomHeading";
            Table dist_data;
            Spacer 1 20;
            Paragraph "Visual Distribution" "CustomHeading";
            Drawing bar_chart;
            Spacer 1 20 ])
  end.

(** The section of the preview: nothing for an empty [data_json]. *)
Definition preview_section (dataset : Dataset) : result (list Flowable) :=
  match data_json dataset with
  | [] => inr []
  | _ =>
      rbind (preview_data dataset) (fun preview_data =>
      inr [ Paragraph "Data Preview (First 10 Records)" "CustomHeading";
            Table preview_data ])
  end.

(** [generate_pdf_report], up to [doc.build]: the elements of the document
    in their order.  [now] is [datetime.now()]. *)
Definition generate_pdf_report (now : Z) (dataset : Dataset) : result (list Flowable) :=
  let head :=
    [ Paragraph "Chemical Equipment Analysis Report" "CustomTitle";
      Spacer 1 12;
      Paragraph "Dataset Information" "CustomHeading";
      Table (metadata_data dataset);
      Spacer 1 20;
      Paragraph "Summary Statistics" "CustomHeading";
      Table (Report.stats_data dataset);
      Spacer 1 20 ] in
  rbind (distribution_section dataset) (fun distribution =>
  rbind (preview_section dataset) (fun preview =>
  inr (head ++ distribution ++ preview ++
       [ Spacer 1 30;
         Paragraph ("Generated on " ++ strftime "%Y-%m-%d %H:%M:%S" now
                    ++ " | Chemical Equipment Visualizer")%string "Footer" ]))).

Definition to_list_item (d : Dataset) : ListItem :=
  mkListItem (pk d) (name d) (username (user d)) (uploaded_at d)
             (total_equipment d) (avg_flowrate d) (avg_pressure d)
             (avg_temperature d) (equipment_distribution d)
             (Models2.record_count d).

(** [DatasetViewSet.list] *)
Definition list_datasets (u : nat) : M Listing :=
  (t <- ORM.get_table ;;
   let queryset := firstn 5 (ORM.filter_user_newest_first u t) in
   ret (mkListing (List.length queryset) (map to_list_item queryset)))%view.

Definition download_handler (e : exn) : M PdfResponse :=
  match e with
  | DoesNotExist => ret (Plain (mkResponse 404 (Error "Dataset not found")))
  | _ => ret (Plain (mkResponse 500 (Error "Failed to generate PDF report")))
  end.

(** [DatasetViewSet.download_pdf] *)
Definition download_pdf (now : Z) (u : nat) (k : nat) : M PdfResponse :=
  try_except
    (dataset <- ORM.objects_get k u ;;
     pdf <- lift (generate_pdf_report now dataset) ;;
     ret (PdfFile ("equipment_report_" ++ PyStr.of_nat (pk dataset) ++ "_"
                   ++ strftime "%Y%m%d" (uploaded_at dataset) ++ ".pdf")%string
                  pdf))%view
    download_handler.

End Rendering.



(** The entries of a table of counts whose key is the value [c]. *)
Definition entries_of (c : cell) (counts : list (cell * nat)) : list (cell * nat) :=
  filter (fun p => Pandas.cell_eqb c (fst p)) counts.

(** The number of cells of [s] that hold the value [c]. *)
Definition occurrences (c : cell) (s : list cell) : nat :=
  List.length (filter (Pandas.cell_eqb c) s).


(** A record whose flow rate, pressure and temperature can be written with
    one decimal: each is a number, or is not there at all. *)
Definition printable (record : list (string * cell)) : Prop :=
  forall key, In key ["Flowrate"; "Pressure"; "Temperature"] ->
              record_get key record = None \/ exists q, record_get key record = Some (Num q).


(** What the summary shows for a stored average: nothing for a null or a
    zero average, [nan] for [nan], and otherwise a number of hundredths at
    most half a hundredth away. *)
Definition shown_average (stored shown : option pyfloat) : Prop :=
  match stored with
  | None => shown = None
  | Some NaN => shown = Some NaN
  | Some (Fin q) =>
      if Qeq_bool q 0 then shown = None
      else exists r (n : Z),
          shown = Some (Fin r) /\
          (r == inject_Z n / 100)%Q /\
          (Qabs (r - q) <= 1 # 200)%Q
  end.


(** * Properties *)

(** ** Sorting *)

Section SortDescFacts.
Context {A : Type} (key : A -> Z).

Lemma insert_desc_perm (x : A) (l : list A) :
  Permutation (insert_desc key x l) (x :: l).
Proof.
  induction l as [|y l IH]; simpl.
  - apply Permutation_refl.
  - destruct (key y <=? key x)%Z.
    + apply Permutation_refl.
    + eapply perm_trans; [apply perm_skip, IH | apply perm_swap].
Qed.

Lemma sort_desc_perm (l : list A) : Permutation (sort_desc key l) l.
Proof.
  induction l as [|x l IH]; simpl.
  - constructor.
  - eapply perm_trans; [apply insert_desc_perm | now apply perm_skip].
Qed.

Lemma insert_desc_sorted (x : A) (l : list A) :
  StronglySorted (ge_key key) l ->
  StronglySorted (ge_key key) (insert_desc key x l).
Proof.
  induction 1 as [|y l Hs IH Hy]; simpl.
  - repeat constructor.
  - destruct (Z.leb_spec (key y) (key x)) as [Hle|Hlt].
    + constructor; [now constructor|].
      constructor; [exact Hle|].
      rewrite Forall_forall in Hy |- *. intros z Hz.
      specialize (Hy z Hz). unfold ge_key in *. lia.
    + constructor; [exact IH|].
      rewrite Forall_forall in Hy |- *. intros z Hz.
      apply (Permutation_in _ (insert_desc_perm x l)) in Hz.
      destruct Hz as [<-|Hz]; [unfold ge_key; lia | now apply Hy].
Qed.

Lemma sort_desc_sorted (l : list A) : StronglySorted (ge_key key) (sort_desc key l).
Proof.
  induction l as [|x l IH]; simpl.
  - constructor.
  - now apply insert_desc_sorted.
Qed.

Lemma sort_desc_length (l : list A) : List.length (sort_desc key l) = List.length l.
Proof. apply Permutation_length, sort_desc_perm. Qed.

(** In a descending list nothing of a suffix outranks the prefix before it. *)
Lemma sorted_prefix_dominates (n : nat) (l : list A) :
  StronglySorted (ge_key key) l ->
  forall a b, In a (firstn n l) -> In b (skipn n l) -> (key b <= key a)%Z.
Proof.
  intros Hs. revert n.
  induction Hs as [|x l Hs IH Hx]; intros n a b Ha Hb.
  - destruct n; simpl in Ha; contradiction.
  - destruct n as [|n]; simpl in Ha, Hb; [contradiction|].
    destruct Ha as [<-|Ha].
    + rewrite Forall_forall in Hx. apply Hx.
      rewrite <- (firstn_skipn n l). apply in_or_app. now right.
    + now apply (IH n).
Qed.

End SortDescFacts.

Lemma list_sum_perm (l l' : list nat) :
  Permutation l l' -> list_sum l = list_sum l'.
Proof. induction 1; simpl; lia. Qed.

Lemma filter_perm {A : Type} (f : A -> bool) (l l' : list A) :
  Permutation l l' -> Permutation (filter f l) (filter f l').
Proof.
  induction 1 as [|x l l' H IH|x y l|l l' l'' H1 IH1 H2 IH2]; simpl.
  - constructor.
  - destruct (f x); [now constructor | exact IH].
  - destruct (f x), (f y); try apply Permutation_refl. apply perm_swap.
  - eapply perm_trans; eassumption.
Qed.

(** ** The report *)

Lemma strongly_sorted_impl {A : Type} (R R' : A -> A -> Prop) (l : list A) :
  (forall a b, R a b -> R' a b) -> StronglySorted R l -> StronglySorted R' l.
Proof.
  intros HR. induction 1 as [|x l Hs IH Hx]; constructor; auto.
  eapply Forall_impl; [|exact Hx]. intros b. apply HR.
Qed.




(** C6. A stored average of 0.0 is not null, yet its row of the statistics
    table reads "N/A": the test [if dataset.avg_flowrate] is false for 0.0
    as it is for [None]. *)
Theorem stats_table_zero_average :
  avg_flowrate Samples.zero_flow = Some (Fin 0) /\
  Report.stats_data Samples.zero_flow =
    [ ["Metric"; "Value"];
      ["Total Equipment Count"; "2"];
      ["Average Flowrate"; "N/A"];
      ["Average Pressure"; "2.00"];
      ["Average Temperature"; "N/A"] ].
Proof. split; vm_compute; reflexivity. Qed.

Lemma avg_text_null : Report.avg_text None = "N/A".
Proof. reflexivity. Qed.

Lemma avg_text_nonzero (q : Q) :
  ~ (q == 0)%Q -> Report.avg_text (Some (Fin q)) = PyFloat.format_fixed 2 q.
Proof.
  intros Hq. unfold Report.avg_text, PyFloat.truthy.
  destruct (Qeq_bool q 0) eqn:E; [|reflexivity].
  apply Qeq_bool_eq in E. contradiction.
Qed.

Lemma avg_text_zero (q : Q) : (q == 0)%Q -> Report.avg_text (Some (Fin q)) = "N/A".
Proof.
  intros Hq. unfold Report.avg_text, PyFloat.truthy.
  now rewrite (Qeq_eq_bool _ _ Hq).
Qed.

(** ** The validator *)

(** C2. The header [Equipment Name], with a space, passes the check of the
    required columns, and is then looked up as [df['Equipment_Name']]: the
    [KeyError] leaves as a validation error.  The same file under the
    header [Equipment_Name] is accepted and returned as it came. *)
Theorem validate_file_space_variant :
  DatasetUploadSerializer.validate_file Samples.space_variant =
    inl (ProcessingError (Uncaught (KeyError "Equipment_Name"))) /\
  DatasetUploadSerializer.validate_file Samples.underscore_variant =
    inr Samples.underscore_variant.
Proof. split; vm_compute; reflexivity. Qed.



Lemma col_index_nth (col : string) (cols : list string) (i : nat) :
  Pandas.col_index col cols = Some i -> nth_error cols i = Some col.
Proof.
  revert i. induction cols as [|c cols IH]; simpl; intros i H; [discriminate|].
  destruct (String.eqb_spec col c) as [->|Hne].
  - now inversion H.
  - destruct (Pandas.col_index col cols) as [j|]; [|discriminate].
    inversion H. simpl. now apply IH.
Qed.

(** Two labels found at one position are one label. *)
Lemma col_index_inj (a b : string) (cols : list string) (i : nat) :
  Pandas.col_index a cols = Some i -> Pandas.col_index b cols = Some i -> a = b.
Proof.
  intros Ha Hb. apply col_index_nth in Ha, Hb. congruence.
Qed.

Lemma col_index_in (col : string) (cols : list string) (i : nat) :
  Pandas.col_index col cols = Some i -> In col cols.
Proof. intros H. eapply nth_error_In, col_index_nth, H. Qed.









(** ** Columns of a frame *)

Lemma at_col_put_same (i : nat) (v : cell) (row : list cell) :
  Pandas.at_col i (Pandas.put i v row) = v.
Proof.
  unfold Pandas.at_col. revert row.
  induction i as [|i IH]; intros [|c row]; simpl; auto.
Qed.

Lemma at_col_put_other (i j : nat) (v : cell) (row : list cell) :
  i <> j -> Pandas.at_col j (Pandas.put i v row) = Pandas.at_col j row.
Proof.
  unfold Pandas.at_col. revert j row.
  induction i as [|i IH]; intros [|j] [|c row] Hne; simpl; try congruence; auto.
  - now destruct j.
  - rewrite IH by congruence. now destruct j.
Qed.

Lemma series_map_column_same (i : nat) (f : cell -> cell) (df : DataFrame) :
  Pandas.series i (Pandas.map_column i f df) = map f (Pandas.series i df).
Proof.
  unfold Pandas.series, Pandas.map_column. simpl. rewrite !map_map.
  apply map_ext. intros row. apply at_col_put_same.
Qed.

Lemma series_map_column_other (i j : nat) (f : cell -> cell) (df : DataFrame) :
  i <> j -> Pandas.series j (Pandas.map_column i f df) = Pandas.series j df.
Proof.
  intros Hne. unfold Pandas.series, Pandas.map_column. simpl. rewrite map_map.
  apply map_ext. intros row. now apply at_col_put_other.
Qed.

Lemma len_map_column (i : nat) (f : cell -> cell) (df : DataFrame) :
  Pandas.len (Pandas.map_column i f df) = Pandas.len df.
Proof. unfold Pandas.len, Pandas.map_column. simpl. apply length_map. Qed.

Lemma series_length (i : nat) (df : DataFrame) :
  List.length (Pandas.series i df) = Pandas.len df.
Proof. apply length_map. Qed.

(** ** The mean and the imputation *)

Lemma known_coerced (s : list cell) :
  Pandas.known (map Pandas.to_numeric_coerce s) = Some (Spec.known_values s).
Proof.
  induction s as [|c s IH]; simpl; [reflexivity|].
  destruct c; simpl; rewrite IH; reflexivity.
Qed.

Lemma known_numeric (s : list cell) :
  Forall Spec.numeric_or_blank s -> Pandas.known s = Some (Spec.known_values s).
Proof.
  induction 1 as [|c s Hc Hs IH]; simpl; [reflexivity|].
  destruct c; simpl in *; try contradiction; rewrite IH; reflexivity.
Qed.

Lemma mean_numeric (s : list cell) :
  Forall Spec.numeric_or_blank s -> Pandas.mean s = inr (mean_of_known s).
Proof.
  intros H. unfold Pandas.mean, mean_of_known. rewrite (known_numeric _ H).
  destruct (Spec.known_values s); reflexivity.
Qed.

Lemma coerced_numeric (s : list cell) :
  Forall Spec.numeric_or_blank (map Pandas.to_numeric_coerce s).
Proof.
  apply Forall_forall. intros c Hc. apply in_map_iff in Hc.
  destruct Hc as ([| |] & <- & _); exact I.
Qed.

Lemma known_values_coerced (s : list cell) :
  Spec.known_values (map Pandas.to_numeric_coerce s) = Spec.known_values s.
Proof.
  induction s as [|c s IH]; simpl; [reflexivity|].
  destruct c; simpl; now rewrite IH.
Qed.

Lemma fill_coerce_imputed (s0 : list cell) (c : cell) :
  Pandas.fillna (mean_of_known s0) (Pandas.to_numeric_coerce c) = Spec.imputed s0 c.
Proof.
  unfold mean_of_known, Spec.imputed.
  destruct c; simpl; destruct (Spec.known_values s0); reflexivity.
Qed.

Lemma fill_numeric_spec (df : DataFrame) (col : string) :
  exists df',
    Utils.fill_numeric df col = inr df' /\
    df_columns df' = df_columns df /\
    forall j,
      Pandas.series j df' =
      if is_at col (df_columns df) j
      then map (Spec.imputed (Pandas.series j df)) (Pandas.series j df)
      else Pandas.series j df.
Proof.
  unfold Utils.fill_numeric, is_at.
  destruct (Pandas.col_index col (df_columns df)) as [i|].
  - rewrite series_map_column_same.
    rewrite (mean_numeric _ (coerced_numeric _)). simpl.
    eexists. split; [reflexivity|]. split; [reflexivity|].
    intros j. destruct (Nat.eqb_spec i j) as [<-|Hne].
    + rewrite !series_map_column_same, map_map.
      apply map_ext. intros c.
      unfold mean_of_known. rewrite known_values_coerced.
      apply fill_coerce_imputed.
    + now rewrite !series_map_column_other.
  - exists df. repeat split; reflexivity.
Qed.

Lemma fill_string_spec (df : DataFrame) (col : string) :
  df_columns (Utils.fill_string df col) = df_columns df /\
  forall j,
    Pandas.series j (Utils.fill_string df col) =
    if is_at col (df_columns df) j
    then map (Pandas.fillna_text "Unknown") (Pandas.series j df)
    else Pandas.series j df.
Proof.
  unfold Utils.fill_string, is_at.
  destruct (Pandas.col_index col (df_columns df)) as [i|].
  - split; [reflexivity|]. intros j.
    destruct (Nat.eqb_spec i j) as [<-|Hne].
    + apply series_map_column_same.
    + now apply series_map_column_other.
  - split; reflexivity.
Qed.

Lemma is_at_true (col : string) (cols : list string) (i : nat) :
  Pandas.col_index col cols = Some i -> is_at col cols i = true.
Proof. unfold is_at. intros ->. apply Nat.eqb_refl. Qed.

Lemma is_at_other (a b : string) (cols : list string) (i : nat) :
  Pandas.col_index a cols = Some i -> a <> b -> is_at b cols i = false.
Proof.
  unfold is_at. intros Ha Hne.
  destruct (Pandas.col_index b cols) as [j|] eqn:Hb; [|reflexivity].
  destruct (Nat.eqb_spec j i) as [->|]; [|reflexivity].
  exfalso. apply Hne. eapply col_index_inj; eassumption.
Qed.

(** What [parse_csv_file] makes of a frame: the result, its labels, and each
    of its columns in terms of the five steps of the function. *)
Lemma parse_frame_spec (file : UploadedFile) (df0 : DataFrame) :
  file_csv file = Frame df0 ->
  let cols := map PyStr.strip (df_columns df0) in
  exists df,
    Utils.parse_csv_file file =
      inr (df, mkMetadata (Pandas.len df) cols (file_size file) (file_name file)) /\
    df_columns df = cols /\
    Pandas.len df = Pandas.len df0 /\
    forall j,
      Pandas.series j df =
      let fill_num col s := if is_at col cols j then map (Spec.imputed s) s else s in
      let fill_str col s :=
        if is_at col cols j then map (Pandas.fillna_text "Unknown") s else s in
      fill_str "Type"
        (fill_str "Equipment_Name"
           (fill_num "Temperature"
              (fill_num "Pressure"
                 (fill_num "Flowrate" (Pandas.series j df0))))).
Proof.
  intros Hcsv cols.
  unfold Utils.parse_csv_file, Utils.parse_frame. rewrite Hcsv.
  unfold Utils.numeric_cols, Utils.string_cols. simpl.
  destruct (fill_numeric_spec (Pandas.strip_columns df0) "Flowrate")
    as (d1 & -> & Hc1 & Hs1). simpl.
  destruct (fill_numeric_spec d1 "Pressure") as (d2 & -> & Hc2 & Hs2). simpl.
  destruct (fill_numeric_spec d2 "Temperature") as (d3 & -> & Hc3 & Hs3). simpl.
  destruct (fill_string_spec d3 "Equipment_Name") as (Hc4 & Hs4).
  destruct (fill_string_spec (Utils.fill_string d3 "Equipment_Name") "Type")
    as (Hc5 & Hs5).
  assert (Hcols : df_columns
                    (Utils.fill_string (Utils.fill_string d3 "Equipment_Name") "Type")
                  = cols).
  { rewrite Hc5, Hc4, Hc3, Hc2, Hc1. reflexivity. }
  eexists. split; [|split; [exact Hcols|split]].
  - rewrite Hcols. reflexivity.
  - rewrite <- !(series_length 0). rewrite Hs5, Hs4, Hs3, Hs2, Hs1.
    repeat match goal with
           | |- context [if ?b then _ else _] => destruct b
           end; rewrite ?length_map; reflexivity.
  - intros j. cbv zeta.
    rewrite Hs5, Hc4, Hc3, Hc2, Hc1, Hs4, Hc3, Hc2, Hc1, Hs3, Hc2, Hc1, Hs2, Hc1, Hs1.
    reflexivity.
Qed.

Lemma imputed_numeric (s0 s : list cell) :
  Forall Spec.numeric_or_blank (map (Spec.imputed s0) s).
Proof.
  apply Forall_forall. intros c Hc. apply in_map_iff in Hc.
  destruct Hc as (c0 & <- & _). unfold Spec.imputed.
  destruct c0; try exact I; destruct (Spec.known_values s0); exact I.
Qed.

Lemma known_values_imputed_none (s0 s : list cell) :
  Spec.known_values s0 = [] ->
  Spec.known_values (map (Spec.imputed s0) s) = Spec.known_values s.
Proof.
  intros H0. induction s as [|c s IH]; simpl; [reflexivity|].
  unfold Spec.imputed at 1. rewrite H0.
  destruct c; simpl; now rewrite IH.
Qed.



Lemma numeric_col_cases (col : string) :
  In col Utils.numeric_cols ->
  col = "Flowrate" \/ col = "Pressure" \/ col = "Temperature".
Proof. simpl. intuition. Qed.

(** The column of a numeric label, after parsing. *)
Lemma parsed_numeric_series (file : UploadedFile) (df0 df : DataFrame)
      (meta : Metadata) (col : string) (i : nat) :
  file_csv file = Frame df0 ->
  Utils.parse_csv_file file = inr (df, meta) ->
  In col Utils.numeric_cols ->
  Pandas.col_index col (map PyStr.strip (df_columns df0)) = Some i ->
  Pandas.col_index col (df_columns df) = Some i /\
  Pandas.series i df =
    map (Spec.imputed (Pandas.series i df0)) (Pandas.series i df0).
Proof.
  intros Hcsv Hparse Hcol Hi.
  destruct (parse_frame_spec file df0 Hcsv) as (df' & Hp & Hcols & _ & Hser).
  rewrite Hp in Hparse. inversion Hparse. subst df. clear Hparse.
  split; [now rewrite Hcols|].
  rewrite Hser. cbv zeta.
  destruct (numeric_col_cases col Hcol) as [-> | [-> | ->]];
    rewrite (is_at_true _ _ _ Hi);
    rewrite ?(is_at_other _ "Flowrate" _ _ Hi) by discriminate;
    rewrite ?(is_at_other _ "Pressure" _ _ Hi) by discriminate;
    rewrite ?(is_at_other _ "Temperature" _ _ Hi) by discriminate;
    rewrite ?(is_at_other _ "Equipment_Name" _ _ Hi) by discriminate;
    rewrite ?(is_at_other _ "Type" _ _ Hi) by discriminate;
    reflexivity.
Qed.



(** ** The aggregator *)



Lemma avg_of_total (df : DataFrame) (col : string) :
  (forall i, Pandas.col_index col (df_columns df) = Some i ->
             Forall Spec.numeric_or_blank (Pandas.series i df)) ->
  exists avg, Utils.avg_of df col = inr avg.
Proof.
  intros H. unfold Utils.avg_of.
  destruct (Pandas.col_index col (df_columns df)) as [i|]; [|eauto].
  rewrite (mean_numeric _ (H i eq_refl)). simpl. eauto.
Qed.

Lemma calculate_statistics_total (df : DataFrame) :
  (forall col i,
      In col Utils.numeric_cols ->
      Pandas.col_index col (df_columns df) = Some i ->
      Forall Spec.numeric_or_blank (Pandas.series i df)) ->
  exists st, Utils.calculate_statistics df = inr st.
Proof.
  intros Hnum. unfold Utils.calculate_statistics.
  destruct (avg_of_total df "Flowrate") as [a1 ->];
    [intros i; apply Hnum; simpl; auto|].
  destruct (avg_of_total df "Pressure") as [a2 ->];
    [intros i; apply Hnum; simpl; auto|].
  destruct (avg_of_total df "Temperature") as [a3 ->];
    [intros i; apply Hnum; simpl; auto|].
  simpl. eauto.
Qed.




(** ** The distribution *)





(** What passes the validator has passed each of its checks. *)
Lemma validate_file_ok (file file' : UploadedFile) :
  DatasetUploadSerializer.validate_file file = inr file' ->
  file' = file /\
  exists df0,
    file_csv file = Frame df0 /\
    Pandas.empty df0 = false /\
    DatasetUploadSerializer.missing_columns (Pandas.strip_columns df0) = [] /\
    DatasetUploadSerializer.check_numeric
      (Pandas.strip_columns df0) DatasetUploadSerializer.numeric_columns = inr tt /\
    DatasetUploadSerializer.check_missing
      (Pandas.strip_columns df0) DatasetUploadSerializer.REQUIRED_COLUMNS = inr tt.
Proof.
  unfold DatasetUploadSerializer.validate_file.
  destruct (negb _); [discriminate|].
  destruct (_ <? _)%Z; [discriminate|].
  destruct (file_csv file) as [df0| | |]; try discriminate.
  unfold DatasetUploadSerializer.check_frame.
  destruct (Pandas.empty df0) eqn:He; [discriminate|].
  destruct (DatasetUploadSerializer.missing_columns _) eqn:Hm; [|discriminate].
  destruct (DatasetUploadSerializer.check_numeric _ _) as [r|[]] eqn:Hn; [discriminate|].
  destruct (DatasetUploadSerializer.check_missing _ _) as [r|[]] eqn:Hc; [discriminate|].
  intros H. inversion H. split; [reflexivity|].
  exists df0. repeat split; assumption.
Qed.

(** What passes the validator goes through parsing and aggregation. *)
Lemma pipeline_runs (file : UploadedFile) (df0 : DataFrame) :
  file_csv file = Frame df0 ->
  exists df st,
    Utils.parse_csv_file file =
      inr (df, mkMetadata (Pandas.len df) (map PyStr.strip (df_columns df0))
                          (file_size file) (file_name file)) /\
    df_columns df = map PyStr.strip (df_columns df0) /\
    Pandas.len df = Pandas.len df0 /\
    Utils.calculate_statistics df = inr st.
Proof.
  intros Hcsv.
  destruct (parse_frame_spec file df0 Hcsv) as (df & Hp & Hcols & Hlen & Hser).
  destruct (calculate_statistics_total df) as [st Hst].
  2: { exists df, st. split; [exact Hp|]. split; [exact Hcols|]. split; [exact Hlen | exact Hst]. }
  intros col i Hcol Hi. rewrite Hcols in Hi.
  destruct (parsed_numeric_series _ _ _ _ _ _ Hcsv Hp Hcol Hi) as (_ & ->).
  apply imputed_numeric.
Qed.





Example sparse_distribution :
  exists df meta st,
    Utils.parse_csv_file Samples.sparse = inr (df, meta) /\
    Utils.calculate_statistics df = inr st /\
    st_equipment_distribution st = [(Text "Pump", 2); (Text "Unknown", 1)] /\
    st_total_equipment st = 3.
Proof.
  destruct (Utils.parse_csv_file Samples.sparse) as [e|[df meta]] eqn:Hp;
    vm_compute in Hp; [discriminate|].
  inversion Hp as [[Hdf Hmeta]].
  eexists _, _, _. split; [reflexivity|].
  split; [vm_compute; reflexivity|]. split; reflexivity.
Qed.

(** ** The view monad *)

Lemma bind_inr {A B : Type} (c : M A) (k : A -> M B) (w w' : World) (b : B) :
  bind c k w = (inr b, w') ->
  exists a w1, c w = (inr a, w1) /\ k a w1 = (inr b, w').
Proof.
  unfold bind. destruct (c w) as [[e|a] w1]; [discriminate|]. eauto.
Qed.

Lemma bind_inl {A B : Type} (c : M A) (k : A -> M B) (w w' : World) (e : exn) :
  bind c k w = (inl e, w') ->
  c w = (inl e, w') \/ exists a w1, c w = (inr a, w1) /\ k a w1 = (inl e, w').
Proof.
  unfold bind. destruct (c w) as [[e'|a] w1]; intros H;
    [left; inversion H; reflexivity | right; eauto].
Qed.

Lemma storage_op_inv (w w' : World) (r : result unit) :
  ORM.storage_op w = (r, w') -> table w' = table w /\ next_pk w' = next_pk w.
Proof.
  unfold ORM.storage_op. destruct (outcomes w); intros H; inversion H; auto.
Qed.

(** ** Looking a dataset up *)

Lemma objects_get_does_not_exist (k u : nat) (w : World) :
  (forall d, In d (table w) -> pk d = k -> user d <> u) ->
  ORM.objects_get k u w = (inl DoesNotExist, w).
Proof.
  intros H. unfold ORM.objects_get.
  destruct (find _ (table w)) as [d|] eqn:Hf; [|reflexivity].
  apply find_some in Hf. destruct Hf as (Hin & Hb).
  apply andb_true_iff in Hb. destruct Hb as (Hk & Hu).
  unfold ORM.has_pk in Hk. unfold ORM.owned_by in Hu.
  apply Nat.eqb_eq in Hk, Hu. exfalso. exact (H d Hin Hk Hu).
Qed.

Lemma pk_identifies (t : list Dataset) (a b : Dataset) :
  NoDup (map pk t) -> In a t -> In b t -> pk a = pk b -> a = b.
Proof.
  induction t as [|r t IH]; simpl; [contradiction|].
  intros Hnd [->|Ha] [->|Hb] Hpk; inversion Hnd as [|? ? Hnotin Hnd']; subst.
  - reflexivity.
  - exfalso. apply Hnotin. rewrite Hpk. now apply in_map.
  - exfalso. apply Hnotin. rewrite <- Hpk. now apply in_map.
  - now apply IH.
Qed.

Lemma views_not_found (u k : nat) (w : World) :
  (forall d, In d (table w) -> pk d = k -> user d <> u) ->
  retrieve u k w = (inr not_found, w) /\
  destroy u k w = (inr not_found, w) /\
  statistics u k w = (inr not_found, w).
Proof.
  intros H. unfold retrieve, destroy, statistics, try_except, bind.
  rewrite (objects_get_does_not_exist k u w H). repeat split.
Qed.

(** C9. Retrieve, delete and statistics answer a key that belongs to
    another user exactly as they answer a key that no dataset has: the same
    404 "Dataset not found", with the table left as it was. *)
Theorem not_found_hides_existence (u k : nat) (w_absent w_other : World) (d : Dataset) :
  (forall r, In r (table w_absent) -> pk r <> k) ->
  NoDup (map pk (table w_other)) ->
  In d (table w_other) -> pk d = k -> user d <> u ->
  fst (retrieve u k w_absent) = fst (retrieve u k w_other) /\
  fst (destroy u k w_absent) = fst (destroy u k w_other) /\
  fst (statistics u k w_absent) = fst (statistics u k w_other) /\
  fst (retrieve u k w_other) = inr (mkResponse 404 (Error "Dataset not found")) /\
  fst (destroy u k w_other) = inr (mkResponse 404 (Error "Dataset not found")) /\
  fst (statistics u k w_other) = inr (mkResponse 404 (Error "Dataset not found")) /\
  snd (destroy u k w_absent) = w_absent /\
  snd (destroy u k w_other) = w_other.
Proof.
  intros Habs Hnd Hin Hpk Hu.
  destruct (views_not_found u k w_absent) as (R1 & D1 & S1).
  { intros r Hr Hk. exfalso. exact (Habs r Hr Hk). }
  destruct (views_not_found u k w_other) as (R2 & D2 & S2).
  { intros r Hr Hk. rewrite (pk_identifies _ r d Hnd Hr Hin); [exact Hu | congruence]. }
  rewrite R1, R2, D1, D2, S1, S2. repeat split.
Qed.

Lemma not_found_hides_existence_witness :
  fst (retrieve 1 3 Samples.empty_world) = fst (retrieve 1 3 Samples.full_world) /\
  fst (destroy 1 3 Samples.empty_world) = fst (destroy 1 3 Samples.full_world) /\
  fst (statistics 1 3 Samples.empty_world) = fst (statistics 1 3 Samples.full_world).
Proof.
  destruct (not_found_hides_existence 1 3 Samples.empty_world Samples.full_world
              (Samples.stored 3 2 250)) as (H1 & H2 & H3 & _).
  - intros r [].
  - simpl. repeat constructor; simpl; intuition discriminate.
  - simpl. auto.
  - reflexivity.
  - simpl. discriminate.
  - repeat split; assumption.
Defined.

(** ** Writing to the table *)

Lemma filter_filter {A : Type} (f g : A -> bool) (l : list A) :
  filter f (filter g l) = filter (fun x => g x && f x) l.
Proof.
  induction l as [|x l IH]; simpl; [reflexivity|].
  destruct (g x); simpl; [destruct (f x)|]; now rewrite IH.
Qed.

Lemma filter_replaced (d : Dataset) (t : list Dataset) :
  filter (fun r => negb (ORM.has_pk (pk d) r))
         (map (fun r => if ORM.has_pk (pk d) r then d else r) t)
  = filter (fun r => negb (ORM.has_pk (pk d) r)) t.
Proof.
  induction t as [|r t IH]; simpl; [reflexivity|].
  destruct (ORM.has_pk (pk d) r) eqn:Hr; simpl.
  - unfold ORM.has_pk at 1. rewrite Nat.eqb_refl. simpl. exact IH.
  - rewrite Hr. simpl. now rewrite IH.
Qed.

Lemma save_run (d : Dataset) (w : World) :
  exists w',
    ORM.save d w = (inr tt, w') /\
    next_pk w' = next_pk w /\ outcomes w' = outcomes w /\
    filter (fun r => negb (ORM.has_pk (pk d) r)) (table w')
    = filter (fun r => negb (ORM.has_pk (pk d) r)) (table w).
Proof.
  unfold ORM.save, bind, ORM.get_table, ORM.set_table.
  destruct (existsb (ORM.has_pk (pk d)) (table w)); eexists;
    (split; [reflexivity|]); simpl; repeat split.
  - apply filter_replaced.
  - rewrite filter_app. simpl. unfold ORM.has_pk at 2. rewrite Nat.eqb_refl.
    simpl. apply app_nil_r.
Qed.

(** Whatever becomes of [file.delete()], the rows of the other keys stay. *)
Lemma file_delete_inv (d : Dataset) (w w' : World) (r : result Dataset) :
  ORM.file_delete d w = (r, w') ->
  next_pk w' = next_pk w /\
  filter (fun x => negb (ORM.has_pk (pk d) x)) (table w')
  = filter (fun x => negb (ORM.has_pk (pk d) x)) (table w) /\
  forall d', r = inr d' -> pk d' = pk d.
Proof.
  unfold ORM.file_delete. destruct (file d).
  - unfold bind.
    destruct (ORM.storage_op w) as [[e|[]] w1] eqn:Hop;
      destruct (storage_op_inv _ _ _ Hop) as (Ht & Hn).
    + intros H. inversion H. subst. rewrite Ht. repeat split; auto. discriminate.
    + destruct (save_run (Models.set_file d None) w1) as (w2 & -> & Hn2 & _ & Hf).
      unfold ret. intros H. inversion H. subst.
      simpl in Hf. rewrite Hf, Ht, Hn2, Hn. repeat split.
      intros d' Hd'. inversion Hd'. reflexivity.
  - unfold ret. intros H. inversion H. subst. repeat split.
    intros d' Hd'. now inversion Hd'.
Qed.

Lemma delete_inv (d : Dataset) (w w' : World) (r : result unit) :
  ORM.delete d w = (r, w') ->
  next_pk w' = next_pk w /\
  match r with
  | inr _ => table w' = filter (fun x => negb (ORM.has_pk (pk d) x)) (table w)
  | inl _ => table w' = table w
  end.
Proof.
  unfold ORM.delete, bind, ORM.get_table, ORM.set_table.
  destruct (ORM.storage_op w) as [[e|[]] w1] eqn:Hop;
    destruct (storage_op_inv _ _ _ Hop) as (Ht & Hn);
    intros H; inversion H; subst; simpl; rewrite ?Ht; auto.
Qed.

Lemma not_among_cons (o : Dataset) (l : list Dataset) (r : Dataset) :
  not_among (o :: l) r = negb (ORM.has_pk (pk o) r) && not_among l r.
Proof. unfold not_among. simpl. apply negb_orb. Qed.

(** The loop, when it comes to its end, has removed the rows of the given
    datasets and nothing else. *)
Lemma delete_each_ok (l : list Dataset) (w w' : World) :
  delete_each l w = (inr tt, w') ->
  next_pk w' = next_pk w /\ table w' = filter (not_among l) (table w).
Proof.
  revert w. induction l as [|o l IH]; intros w; simpl.
  - unfold ret. intros H. inversion H. subst. split; [reflexivity|].
    symmetry. apply forallb_filter_id. apply forallb_forall. reflexivity.
  - intros H.
    apply bind_inr in H. destruct H as (o' & w1 & Hfd & H).
    apply bind_inr in H. destruct H as ([] & w2 & Hdel & H).
    destruct (file_delete_inv _ _ _ _ Hfd) as (Hn1 & Hf1 & Hpk).
    specialize (Hpk o' eq_refl).
    destruct (delete_inv _ _ _ _ Hdel) as (Hn2 & Ht2).
    destruct (IH _ H) as (Hn3 & Ht3).
    split; [congruence|].
    rewrite Ht3, Ht2, Hpk, Hf1, filter_filter.
    apply filter_ext. intros r. now rewrite not_among_cons.
Qed.

Lemma storage_op_raises (w w' : World) (e : exn) :
  ORM.storage_op w = (inl e, w') -> e = StorageError /\ hd false (outcomes w) = true.
Proof.
  unfold ORM.storage_op. destruct (outcomes w) as [|[] rest]; intros H;
    inversion H; auto.
Qed.

Lemma storage_op_accepts (w w' : World) :
  ORM.storage_op w = (inr tt, w') ->
  hd false (outcomes w) = false /\
  w' = mkWorld (table w) (next_pk w) (tl (outcomes w)).
Proof.
  unfold ORM.storage_op. destruct w as [t n o]. simpl.
  destruct o as [|[] rest]; intros H; inversion H; auto.
Qed.

Lemma file_delete_raises (d : Dataset) (w w' : World) (e : exn) :
  ORM.file_delete d w = (inl e, w') -> e = StorageError.
Proof.
  unfold ORM.file_delete. destruct (file d); [|discriminate].
  intros H. apply bind_inl in H. destruct H as [H|(a & w1 & _ & H)].
  - now apply storage_op_raises in H.
  - apply bind_inl in H. destruct H as [H|(a' & w2 & _ & H)]; [|discriminate].
    destruct (save_run (Models.set_file d None) w1) as (w2 & Hs & _).
    rewrite Hs in H. discriminate.
Qed.

Lemma delete_raises (d : Dataset) (w w' : World) (e : exn) :
  ORM.delete d w = (inl e, w') -> e = StorageError.
Proof.
  intros H. apply bind_inl in H. destruct H as [H|(a & w1 & _ & H)].
  - now apply storage_op_raises in H.
  - apply bind_inl in H. destruct H as [H|(a' & w2 & _ & H)]; discriminate.
Qed.

(** The loop leaves the sequence of keys alone, and raises nothing but the
    refusal of the storage. *)
Lemma delete_each_inv (l : list Dataset) (w w' : World) (r : result unit) :
  delete_each l w = (r, w') ->
  next_pk w' = next_pk w /\ forall e, r = inl e -> e = StorageError.
Proof.
  revert w. induction l as [|o l IH]; intros w; simpl.
  - unfold ret. intros H. inversion H. split; [reflexivity | discriminate].
  - unfold bind at 1.
    destruct (ORM.file_delete o w) as [[e|o'] w1] eqn:Hfd.
    + intros H. inversion H. subst.
      destruct (file_delete_inv _ _ _ _ Hfd) as (Hn & _).
      split; [exact Hn|]. intros e' He'. inversion He'. subst.
      eapply file_delete_raises, Hfd.
    + destruct (file_delete_inv _ _ _ _ Hfd) as (Hn1 & _).
      unfold bind at 1.
      destruct (ORM.delete o' w1) as [[e|[]] w2] eqn:Hdel.
      * intros H. inversion H. subst.
        destruct (delete_inv _ _ _ _ Hdel) as (Hn2 & _).
        split; [congruence|]. intros e' He'. inversion He'. subst.
        eapply delete_raises, Hdel.
      * intros H. destruct (delete_inv _ _ _ _ Hdel) as (Hn2 & _).
        destruct (IH _ H) as (Hn3 & He). split; [congruence | exact He].
Qed.

(** ** The upload *)

(** The three ways an upload ends: refused with the table as it was (400);
    refused by the storage when the row is written (500, table as it was);
    or the row is written and the loop over the datasets beyond the cap
    runs, to its end (201) or until the storage refuses (500). *)
Lemma upload_cases (number_key : Q -> string) (request : Request)
      (w w' : World) (r : result Response) :
  upload number_key request w = (r, w') ->
  exists resp, r = inr resp /\
  ((status resp = 400 /\ w' = w) \/
   (status resp = 500 /\ hd false (outcomes w) = true /\
    table w' = table w /\ next_pk w' = next_pk w) \/
   (exists df meta st,
       DatasetUploadSerializer.validate_file (req_file request) = inr (req_file request) /\
       Utils.parse_csv_file (req_file request) = inr (df, meta) /\
       Utils.calculate_statistics df = inr st /\
       hd false (outcomes w) = false /\
       let d := new_dataset number_key request (Utils.dataframe_to_json df) st (next_pk w) in
       let doomed :=
         if MAX_DATASETS_PER_USER
              <? List.length (ORM.filter_user_newest_first (req_user request) (table w ++ [d]))
         then beyond_cap (req_user request) (table w ++ [d])
         else [] in
       exists r',
         delete_each doomed (created w d) = (r', w') /\
         match r' with
         | inr _ => resp = mkResponse 201 (Uploaded d (Models.get_statistics_summary d))
         | inl _ => status resp = 500
         end)).
Proof.
  unfold upload.
  destruct (DatasetUploadSerializer.validate_file (req_file request))
    as [errors|file'] eqn:Hv.
  { unfold ret. intros H. inversion H. eexists. split; [reflexivity|]. left. auto. }
  destruct (validate_file_ok _ _ Hv) as (-> & df0 & Hcsv & _).
  destruct (pipeline_runs _ df0 Hcsv) as (df & st & Hp & _ & _ & Hst).
  unfold try_except, bind at 1, lift at 1. rewrite Hp.
  unfold bind at 1, lift at 1. cbn [fst]. rewrite Hst.
  unfold bind at 1, ORM.objects_create, bind at 1.
  destruct (ORM.storage_op w) as [[e|[]] w1] eqn:Hop.
  { destruct (storage_op_raises _ _ _ Hop) as (-> & Hhd).
    destruct (storage_op_inv _ _ _ Hop) as (Ht & Hn).
    simpl. unfold ret. intros H. inversion H. subst.
    eexists. split; [reflexivity|]. right. left. auto. }
  destruct (storage_op_accepts _ _ Hop) as (Hhd & ->). cbn [table next_pk outcomes].
  unfold bind at 1, ORM.get_table at 1. cbn [table].
  fold (created w (new_dataset number_key request (Utils.dataframe_to_json df) st (next_pk w))).
  set (d := new_dataset number_key request (Utils.dataframe_to_json df) st (next_pk w)).
  set (ranked := ORM.filter_user_newest_first (req_user request) (table w ++ [d])).
  unfold bind at 1.
  assert (Hloop :
            (if MAX_DATASETS_PER_USER <? List.length ranked
             then delete_each (skipn MAX_DATASETS_PER_USER ranked)
             else ret tt) (created w d)
            = delete_each
                (if MAX_DATASETS_PER_USER <? List.length ranked
                 then beyond_cap (req_user request) (table w ++ [d]) else [])
                (created w d)).
  { destruct (MAX_DATASETS_PER_USER <? List.length ranked); reflexivity. }
  rewrite Hloop. clear Hloop.
  destruct (delete_each _ (created w d)) as [[e|[]] w2] eqn:Hloop.
  - destruct (delete_each_inv _ _ _ _ Hloop) as (_ & He).
    rewrite (He e eq_refl). simpl. unfold ret. intros H. inversion H. subst.
    eexists. split; [reflexivity|]. right. right.
    eexists df, _, st.
    split; [reflexivity|]. split; [reflexivity|].
    split; [exact Hst|]. split; [exact Hhd|].
    cbv zeta. exists (inl e). split; [exact Hloop | reflexivity].
  - unfold ret. intros H. inversion H. subst.
    eexists. split; [reflexivity|]. right. right.
    eexists df, _, st.
    split; [reflexivity|]. split; [reflexivity|].
    split; [exact Hst|]. split; [exact Hhd|].
    cbv zeta. exists (inr tt). split; [exact Hloop | reflexivity].
Qed.

(** ** Retention *)

Lemma NoDup_map_filter (f : Dataset -> bool) (t : list Dataset) :
  NoDup (map pk t) -> NoDup (map pk (filter f t)).
Proof.
  induction t as [|r t IH]; simpl; intros H; [constructor|].
  inversion H as [|? ? Hnotin Hnd]; subst.
  destruct (f r); simpl; [constructor|]; auto.
  intros Hin. apply Hnotin. apply in_map_iff in Hin.
  destruct Hin as (x & Hx & Hin). apply filter_In in Hin.
  apply in_map_iff. exists x. tauto.
Qed.

Lemma filter_all {A : Type} (f : A -> bool) (l : list A) :
  (forall x, In x l -> f x = true) -> filter f l = l.
Proof.
  induction l as [|x l IH]; simpl; intros H; [reflexivity|].
  rewrite (H x (or_introl eq_refl)). f_equal. apply IH. auto.
Qed.

Lemma filter_none {A : Type} (f : A -> bool) (l : list A) :
  (forall x, In x l -> f x = false) -> filter f l = [].
Proof.
  induction l as [|x l IH]; simpl; intros H; [reflexivity|].
  rewrite (H x (or_introl eq_refl)). apply IH. auto.
Qed.

Lemma not_among_false (l : list Dataset) (r : Dataset) :
  In r l -> not_among l r = false.
Proof.
  intros H. unfold not_among. apply negb_false_iff. apply existsb_exists.
  exists r. split; [exact H|]. apply Nat.eqb_refl.
Qed.

Lemma not_among_true (l : list Dataset) (r : Dataset) :
  (forall o, In o l -> pk o <> pk r) -> not_among l r = true.
Proof.
  intros H. unfold not_among. apply negb_true_iff.
  destruct (existsb _ l) eqn:E; [|reflexivity].
  apply existsb_exists in E. destruct E as (o & Ho & Hpk).
  unfold ORM.has_pk in Hpk. apply Nat.eqb_eq in Hpk.
  exfalso. apply (H o Ho). congruence.
Qed.

(** Removing the keys of a suffix leaves the prefix. *)
Lemma filter_not_among_suffix (a b : list Dataset) :
  NoDup (map pk (a ++ b)) -> filter (not_among b) (a ++ b) = a.
Proof.
  intros Hnd. rewrite filter_app.
  rewrite (filter_none _ b) by (intros; now apply not_among_false).
  rewrite app_nil_r. apply filter_all. intros r Hr.
  apply not_among_true. intros o Ho Hpk.
  assert (o = r).
  { apply (pk_identifies (a ++ b)); auto; apply in_or_app; auto. }
  subst o. rewrite map_app in Hnd.
  revert Hnd. clear -Hr Ho. induction a as [|x a IH]; simpl; [contradiction|].
  intros H. inversion H as [|? ? Hnotin Hnd]; subst.
  destruct Hr as [->|Hr]; [|auto].
  apply Hnotin. apply in_or_app. right. now apply in_map.
Qed.

Lemma beyond_cap_or_nothing (u : nat) (t : list Dataset) :
  (if MAX_DATASETS_PER_USER <? List.length (ORM.filter_user_newest_first u t)
   then beyond_cap u t else []) = beyond_cap u t.
Proof.
  destruct (Nat.ltb_spec MAX_DATASETS_PER_USER
              (List.length (ORM.filter_user_newest_first u t))) as [H|H];
    [reflexivity|].
  unfold beyond_cap. symmetry. now apply skipn_all2.
Qed.

(** What is left of a table of distinct keys once the datasets of [u]
    beyond the cap are removed. *)
Lemma retention_keeps_newest (u : nat) (t : list Dataset) :
  NoDup (map pk t) ->
  let ranked := ORM.filter_user_newest_first u t in
  let t' := filter (not_among (beyond_cap u t)) t in
  Permutation (Spec.owned u t') (firstn MAX_DATASETS_PER_USER ranked) /\
  (forall v, v <> u -> Spec.owned v t' = Spec.owned v t).
Proof.
  intros Hnd ranked t'. unfold t', Spec.owned, beyond_cap. fold ranked.
  assert (Hperm : Permutation ranked (filter (ORM.owned_by u) t))
    by apply sort_desc_perm.
  split.
  - rewrite filter_filter.
    rewrite (filter_ext _ (fun x => ORM.owned_by u x
                                    && not_among (skipn MAX_DATASETS_PER_USER ranked) x))
      by (intros; apply andb_comm).
    rewrite <- filter_filter.
    eapply perm_trans; [apply filter_perm, Permutation_sym, Hperm|].
    rewrite <- (firstn_skipn MAX_DATASETS_PER_USER ranked) at 2.
    rewrite filter_not_among_suffix; [apply Permutation_refl|].
    rewrite firstn_skipn.
    eapply Permutation_NoDup; [apply Permutation_map, Permutation_sym, Hperm|].
    now apply NoDup_map_filter.
  - intros v Hv. rewrite filter_filter. apply filter_ext_in. intros r Hr.
    destruct (ORM.owned_by v r) eqn:Hown; [|apply andb_false_r].
    rewrite andb_true_r. apply not_among_true. intros o Ho Hpk.
    assert (Hot : In o (filter (ORM.owned_by u) t)).
    { apply (Permutation_in _ Hperm).
      rewrite <- (firstn_skipn MAX_DATASETS_PER_USER ranked).
      apply in_or_app. now right. }
    apply filter_In in Hot. destruct Hot as (Hot & Hou).
    rewrite (pk_identifies t o r Hnd Hot Hr Hpk) in Hou.
    unfold ORM.owned_by in Hown, Hou. apply Nat.eqb_eq in Hown, Hou. congruence.
Qed.

Lemma created_distinct (w : World) (d : Dataset) :
  Spec.store_wf w -> pk d = next_pk w -> Spec.store_wf (created w d).
Proof.
  intros (Hnd & Hlt) Hpk. unfold Spec.store_wf, created. simpl. split.
  - rewrite map_app. simpl.
    eapply Permutation_NoDup; [apply Permutation_cons_append|].
    constructor; [|exact Hnd].
    intros Hin. apply in_map_iff in Hin. destruct Hin as (x & Hx & Hin).
    rewrite Forall_forall in Hlt. specialize (Hlt x Hin). lia.
  - apply Forall_app. split.
    + eapply Forall_impl; [|exact Hlt]. simpl. intros. lia.
    + constructor; [lia | constructor].
Qed.

Lemma filter_wf (f : Dataset -> bool) (w w' : World) :
  Spec.store_wf w -> table w' = filter f (table w) -> next_pk w' = next_pk w ->
  Spec.store_wf w'.
Proof.
  intros (Hnd & Hlt) Ht Hn. unfold Spec.store_wf. rewrite Ht, Hn. split.
  - now apply NoDup_map_filter.
  - apply Forall_forall. intros x Hx. apply filter_In in Hx.
    rewrite Forall_forall in Hlt. now apply Hlt.
Qed.

(** C1. After an upload that succeeds, the user owns at most 5 datasets:
    the 5 first of the user's datasets, the new one included, in
    descending order of upload time (all of them when there are fewer, and
    exactly 5 when the user had 5 or more).  No dataset that is kept is
    older than one that was deleted, the datasets of the other users are
    untouched, and primary keys stay distinct. *)
Theorem upload_keeps_five_most_recent (number_key : Q -> string)
        (request : Request) (w w' : World) (resp : Response) :
  Spec.store_wf w ->
  upload number_key request w = (inr resp, w') ->
  status resp = 201 ->
  let u := req_user request in
  exists d,
    body resp = Uploaded d (Models.get_statistics_summary d) /\
    pk d = next_pk w /\ user d = u /\ uploaded_at d = req_now request /\
    Permutation (Spec.owned u (table w'))
                (firstn 5 (ORM.filter_user_newest_first u (table w ++ [d]))) /\
    List.length (Spec.owned u (table w')) <= 5 /\
    (5 <= List.length (Spec.owned u (table w)) ->
     List.length (Spec.owned u (table w')) = 5) /\
    (forall kept gone,
        In kept (Spec.owned u (table w')) ->
        In gone (Spec.owned u (table w ++ [d])) -> ~ In gone (table w') ->
        (uploaded_at gone <= uploaded_at kept)%Z) /\
    (forall v, v <> u -> Spec.owned v (table w') = Spec.owned v (table w)) /\
    Spec.store_wf w'.
Proof.
  intros Hwf Hup H201 u.
  destruct (upload_cases _ _ _ _ _ Hup) as (resp' & Hr & Hcases).
  inversion Hr. subst resp'. clear Hr.
  destruct Hcases as [(H400 & _)|[(H500 & _)|Hrun]]; [congruence | congruence |].
  destruct Hrun as (df & meta & st & _ & _ & _ & _ & Hrun). cbv zeta in Hrun.
  set (d := new_dataset number_key request (Utils.dataframe_to_json df) st (next_pk w)) in *.
  destruct Hrun as (r' & Hloop & Hresp).
  rewrite beyond_cap_or_nothing in Hloop.
  destruct r' as [e|[]]; [congruence|].
  destruct (delete_each_ok _ _ _ Hloop) as (Hn & Ht).
  pose proof (created_distinct w d Hwf eq_refl) as Hwf1.
  cbn [created table next_pk] in Hn, Ht.
  destruct (retention_keeps_newest u (table w ++ [d]) (proj1 Hwf1)) as (Hperm & Hothers).
  fold u in Ht. rewrite <- Ht in Hperm, Hothers.
  set (ranked := ORM.filter_user_newest_first u (table w ++ [d])) in *.
  assert (Hlen : List.length (Spec.owned u (table w')) = Nat.min 5 (List.length ranked)).
  { rewrite (Permutation_length Hperm). apply length_firstn. }
  assert (Hranked : List.length ranked = S (List.length (Spec.owned u (table w)))).
  { unfold ranked, ORM.filter_user_newest_first. rewrite sort_desc_length.
    unfold Spec.owned. rewrite filter_app, length_app. simpl.
    unfold ORM.owned_by at 2. simpl. fold u. rewrite Nat.eqb_refl. simpl. lia. }
  exists d. subst resp. simpl.
  split; [reflexivity|]. split; [reflexivity|]. split; [reflexivity|].
  split; [reflexivity|]. split; [exact Hperm|].
  split; [rewrite Hlen; apply Nat.le_min_l|].
  split; [intros H5; rewrite Hlen, Hranked; lia|].
  split; [|split].
  - intros kept gone Hkept Hgone Hnot.
    apply (sorted_prefix_dominates uploaded_at 5 ranked).
    + apply sort_desc_sorted.
    + exact (Permutation_in _ Hperm Hkept).
    + assert (Hin : In gone ranked).
      { apply (Permutation_in _ (Permutation_sym (sort_desc_perm uploaded_at _))).
        exact Hgone. }
      rewrite <- (firstn_skipn 5 ranked) in Hin. apply in_app_or in Hin.
      destruct Hin as [Hin|Hin]; [|exact Hin].
      exfalso. apply Hnot.
      apply (Permutation_in _ (Permutation_sym Hperm)) in Hin.
      unfold Spec.owned in Hin. apply filter_In in Hin. tauto.
  - intros v Hv. rewrite (Hothers v Hv). unfold Spec.owned.
    rewrite filter_app. simpl. unfold ORM.owned_by at 2. simpl. fold u.
    destruct (Nat.eqb_spec u v); [congruence|]. apply app_nil_r.
  - eapply filter_wf; [exact Hwf1 | exact Ht | exact Hn].
Qed.

Lemma upload_keeps_five_most_recent_witness :
  exists resp w',
    upload Samples.plain_key Samples.request1 Samples.full_world = (inr resp, w') /\
    status resp = 201 /\
    List.length (Spec.owned 1 (table w')) = 5 /\
    Spec.owned 2 (table w') = Spec.owned 2 Samples.full_table.
Proof.
  destruct (upload Samples.plain_key Samples.request1 Samples.full_world)
    as [[e|resp] w'] eqn:E.
  - exfalso. vm_compute in E. discriminate.
  - assert (H201 : status resp = 201).
    { pose proof E as E'. vm_compute in E'. inversion E'. reflexivity. }
    assert (Hwf : Spec.store_wf Samples.full_world).
    { split; simpl.
      - repeat constructor; simpl; intuition discriminate.
      - repeat constructor. }
    destruct (upload_keeps_five_most_recent _ _ _ _ _ Hwf E H201)
      as (d & _ & _ & _ & _ & _ & _ & H5 & _ & Hothers & _).
    exists resp, w'. split; [reflexivity|]. split; [exact H201|]. split.
    + apply H5. simpl. lia.
    + apply Hothers. discriminate.
Defined.

(** ** Uploads that fail *)




(** ** The two spellings of the first column *)

Lemma check_missing_present (df : DataFrame) (cols : list string) (col : string) :
  DatasetUploadSerializer.check_missing df cols = inr tt ->
  In col cols -> In col (df_columns df).
Proof.
  induction cols as [|c cols IH]; simpl; [contradiction|].
  unfold Pandas.getitem at 1.
  destruct (Pandas.col_index c (df_columns df)) as [i|] eqn:Hi; [|discriminate].
  destruct (Qlt_le_dec _ _); [discriminate|].
  intros H [<-|Hin]; [eapply col_index_in, Hi | now apply IH].
Qed.

(** Nothing is accepted unless a label reads [Equipment_Name], with the
    underscore, once trimmed: the spelling with a space never passes. *)
Lemma validate_file_needs_underscore (file file' : UploadedFile) :
  DatasetUploadSerializer.validate_file file = inr file' ->
  exists df0,
    file_csv file = Frame df0 /\
    In "Equipment_Name" (map PyStr.strip (df_columns df0)).
Proof.
  intros Hv.
  destruct (validate_file_ok _ _ Hv) as (_ & df0 & Hcsv & _ & _ & _ & Hmiss).
  exists df0. split; [exact Hcsv|].
  apply (check_missing_present _ _ "Equipment_Name" Hmiss). simpl. auto.
Qed.



(** ** Runs of the model *)

Example format_samples :
  PyFloat.format_fixed 1 75%Q = "75.0" /\
  PyFloat.format_fixed 1 (1 # 3)%Q = "0.3" /\
  PyFloat.format_fixed 2 (-(1 # 8))%Q = "-0.12" /\
  PyFloat.format_fixed 2 (201 # 200)%Q = "1.00" /\
  PyFloat.format 2 NaN = "nan" /\
  PyStr.strip "  Equipment Name " = "Equipment Name" /\
  PyStr.replace_space "Equipment Name" = "Equipment_Name" /\
  PyStr.endswith "data.csv" ".csv" = true /\
  PyStr.endswith "data.CSV" ".csv" = false.
Proof. vm_compute. repeat split. Qed.

Example stable_descending :
  sort_desc (fun p : string * nat => Z.of_nat (snd p))
            [("a", 1); ("b", 3); ("c", 1); ("d", 3)]
  = [("b", 3); ("d", 3); ("a", 1); ("c", 1)].
Proof. reflexivity. Qed.

(** The sixth upload of user 1 drops the dataset of key 1, the oldest, and
    keeps the dataset of user 2. *)
Example sixth_upload_keys :
  exists resp w',
    upload Samples.plain_key Samples.request1 Samples.full_world = (inr resp, w') /\
    status resp = 201 /\
    map pk (table w') = [2; 3; 4; 5; 6; 7].
Proof.
  destruct (upload Samples.plain_key Samples.request1 Samples.full_world)
    as [[e|resp] w'] eqn:E; vm_compute in E; [discriminate|].
  inversion E. eexists _, _. repeat split.
Qed.

(** The first upload into an empty table stores the parsed records with
    their statistics. *)
Example first_upload :
  exists resp w' d,
    upload Samples.plain_key Samples.request1 Samples.empty_world = (inr resp, w') /\
    status resp = 201 /\
    table w' = [d] /\
    total_equipment d = 3 /\
    equipment_distribution d = [("Pump", 2); ("Unknown", 1)].
Proof.
  destruct (upload Samples.plain_key Samples.request1 Samples.empty_world)
    as [[e|resp] w'] eqn:E; vm_compute in E; [discriminate|].
  inversion E. eexists _, _, _. repeat split.
Qed.

(** * Further properties *)

(** ** Writes keep the table well formed *)

Lemma storage_op_wf (w w' : World) (r : result unit) :
  ORM.storage_op w = (r, w') -> Spec.store_wf w -> Spec.store_wf w'.
Proof.
  intros H Hwf. destruct (storage_op_inv _ _ _ H) as (Ht & Hn).
  unfold Spec.store_wf. now rewrite Ht, Hn.
Qed.

Lemma map_pk_replaced (d : Dataset) (t : list Dataset) :
  map pk (map (fun r => if ORM.has_pk (pk d) r then d else r) t) = map pk t.
Proof.
  rewrite map_map. apply map_ext. intros r.
  destruct (ORM.has_pk (pk d) r) eqn:E; [|reflexivity].
  unfold ORM.has_pk in E. apply Nat.eqb_eq in E. congruence.
Qed.

Lemma existsb_has_pk_false (k : nat) (t : list Dataset) :
  existsb (ORM.has_pk k) t = false -> ~ In k (map pk t).
Proof.
  intros E Hin. apply in_map_iff in Hin. destruct Hin as (r & Hr & Hin).
  assert (existsb (ORM.has_pk k) t = true); [|congruence].
  apply existsb_exists. exists r. split; [exact Hin|].
  unfold ORM.has_pk. now apply Nat.eqb_eq.
Qed.

(** What [save] leaves in the table: the rows that were there, or the
    instance that is saved. *)
Lemma save_effect (d : Dataset) (w w' : World) (r : result unit) :
  ORM.save d w = (r, w') ->
  next_pk w' = next_pk w /\
  (forall x, In x (table w') -> In x (table w) \/ x = d) /\
  (Spec.store_wf w -> pk d < next_pk w -> Spec.store_wf w').
Proof.
  unfold ORM.save, bind, ORM.get_table, ORM.set_table.
  destruct (existsb (ORM.has_pk (pk d)) (table w)) eqn:E;
    intros H; inversion H; subst; simpl; (split; [reflexivity|]); split.
  - intros x Hx. apply in_map_iff in Hx. destruct Hx as (y & Hy & Hin).
    destruct (ORM.has_pk (pk d) y); [right | left]; congruence.
  - intros (Hnd & Hlt) Hd. split; simpl.
    + now rewrite map_pk_replaced.
    + apply Forall_forall. intros x Hx. apply in_map_iff in Hx.
      destruct Hx as (y & Hy & Hin). rewrite Forall_forall in Hlt.
      destruct (ORM.has_pk (pk d) y); subst; auto.
  - intros x Hx. apply in_app_or in Hx. destruct Hx as [Hx|[<-|[]]]; auto.
  - intros (Hnd & Hlt) Hd. split; simpl.
    + rewrite map_app. simpl.
      eapply Permutation_NoDup; [apply Permutation_cons_append|].
      constructor; [now apply existsb_has_pk_false | exact Hnd].
    + apply Forall_app. split; [exact Hlt | repeat constructor; exact Hd].
Qed.

Lemma file_delete_effect (d : Dataset) (w w' : World) (r : result Dataset) :
  ORM.file_delete d w = (r, w') ->
  (forall x, In x (table w') -> In x (table w) \/ x = Models.set_file d None) /\
  (Spec.store_wf w -> pk d < next_pk w -> Spec.store_wf w').
Proof.
  unfold ORM.file_delete. destruct (file d).
  - unfold bind.
    destruct (ORM.storage_op w) as [[e|[]] w1] eqn:Hop;
      pose proof (storage_op_wf _ _ _ Hop) as Hwf1;
      destruct (storage_op_inv _ _ _ Hop) as (Ht & Hn).
    + intros H. inversion H. subst. rewrite Ht. split; auto.
    + destruct (ORM.save (Models.set_file d None) w1) as [[e|[]] w2] eqn:Hs;
        destruct (save_effect _ _ _ _ Hs) as (Hn2 & Hrows & Hwf2);
        unfold ret; intros H; inversion H; subst;
        (split; [intros x Hx; rewrite <- Ht; now apply Hrows|]);
        intros Hwf Hd; apply Hwf2; auto; simpl; lia.
  - unfold ret. intros H. inversion H. subst. split; auto.
Qed.

Lemma delete_effect (d : Dataset) (w w' : World) (r : result unit) :
  ORM.delete d w = (r, w') ->
  (forall x, In x (table w') -> In x (table w)) /\
  (Spec.store_wf w -> Spec.store_wf w').
Proof.
  intros H. destruct (delete_inv _ _ _ _ H) as (Hn & Ht).
  destruct r as [e|[]].
  - rewrite Ht. split; [auto|]. unfold Spec.store_wf. now rewrite Ht, Hn.
  - split.
    + intros x Hx. rewrite Ht in Hx. apply filter_In in Hx. tauto.
    + intros Hwf. eapply filter_wf; eassumption.
Qed.

Lemma filter_comm {A : Type} (f g : A -> bool) (l : list A) :
  filter f (filter g l) = filter g (filter f l).
Proof. rewrite !filter_filter. apply filter_ext. intros. apply andb_comm. Qed.

Lemma filter_idem {A : Type} (f : A -> bool) (l : list A) :
  filter f (filter f l) = filter f l.
Proof. rewrite filter_filter. apply filter_ext. intros. apply andb_diag. Qed.

Lemma filter_not_among_step (o : Dataset) (l t : list Dataset) :
  filter (not_among (o :: l)) t
  = filter (not_among l) (filter (fun x => negb (ORM.has_pk (pk o) x)) t).
Proof.
  rewrite filter_filter. apply filter_ext. intros. apply not_among_cons.
Qed.

(** However far the loop gets: the rows of the other keys are as they were,
    every row is an old row or an old dataset with its file cleared, and
    the table stays well formed. *)
Lemma delete_each_effect (l : list Dataset) (w w' : World) (r : result unit) :
  delete_each l w = (r, w') ->
  filter (not_among l) (table w') = filter (not_among l) (table w) /\
  (forall x, In x (table w') ->
             In x (table w) \/ exists o, In o l /\ x = Models.set_file o None) /\
  (Spec.store_wf w -> Forall (fun o => pk o < next_pk w) l -> Spec.store_wf w').
Proof.
  revert w. induction l as [|o l IH]; intros w; simpl.
  - unfold ret. intros H. inversion H. subst. auto.
  - unfold bind at 1.
    destruct (ORM.file_delete o w) as [[e|o'] w1] eqn:Hfd;
      destruct (file_delete_inv _ _ _ _ Hfd) as (Hn1 & Hf1 & Hpk);
      destruct (file_delete_effect _ _ _ _ Hfd) as (Hrows1 & Hwf1).
    + intros H. inversion H. subst. split; [|split].
      * now rewrite !filter_not_among_step, Hf1.
      * intros x Hx. destruct (Hrows1 x Hx) as [? | ->]; [now left|].
        right. exists o. split; [now left | reflexivity].
      * intros Hwf Hall. inversion Hall. auto.
    + specialize (Hpk o' eq_refl). unfold bind at 1.
      destruct (ORM.delete o' w1) as [[e|[]] w2] eqn:Hdel;
        destruct (delete_inv _ _ _ _ Hdel) as (Hn2 & Ht2);
        destruct (delete_effect _ _ _ _ Hdel) as (Hrows2 & Hwf2).
      * intros H. inversion H. subst. split; [|split].
        -- now rewrite !filter_not_among_step, Ht2, Hf1.
        -- intros x Hx. destruct (Hrows1 x (Hrows2 x Hx)) as [? | ->]; [now left|].
           right. exists o. split; [now left | reflexivity].
        -- intros Hwf Hall. inversion Hall. auto.
      * intros H. destruct (IH _ H) as (Hf3 & Hrows3 & Hwf3). split; [|split].
        -- rewrite !filter_not_among_step.
           rewrite (filter_comm (not_among l)), Hf3, Ht2, Hpk.
           rewrite (filter_comm _ (not_among l)), filter_idem, Hf1. reflexivity.
        -- intros x Hx. destruct (Hrows3 x Hx) as [Hx2|(o2 & Ho2 & ->)].
           ++ destruct (Hrows1 x (Hrows2 x Hx2)) as [? | ->]; [now left|].
              right. exists o. split; [now left | reflexivity].
           ++ right. exists o2. split; [now right | reflexivity].
        -- intros Hwf Hall. inversion Hall as [|? ? Ho Hl]; subst.
           apply Hwf3; [auto|]. rewrite Hn2, Hn1. exact Hl.
Qed.

Lemma beyond_cap_rows (u : nat) (t : list Dataset) (o : Dataset) :
  In o (beyond_cap u t) -> In o t /\ user o = u.
Proof.
  intros H. unfold beyond_cap in H.
  assert (Hin : In o (ORM.filter_user_newest_first u t)).
  { rewrite <- (firstn_skipn MAX_DATASETS_PER_USER). apply in_or_app. now right. }
  apply (Permutation_in _ (sort_desc_perm uploaded_at _)) in Hin.
  apply filter_In in Hin. destruct Hin as (Hin & Hu).
  unfold ORM.owned_by in Hu. apply Nat.eqb_eq in Hu. auto.
Qed.

Lemma owned_app_other (v : nat) (t : list Dataset) (d : Dataset) :
  user d <> v -> Spec.owned v (t ++ [d]) = Spec.owned v t.
Proof.
  intros H. unfold Spec.owned. rewrite filter_app. simpl.
  unfold ORM.owned_by at 2. destruct (Nat.eqb_spec (user d) v); [contradiction|].
  apply app_nil_r.
Qed.

(** What an upload does to the table, however it ends. *)
Lemma upload_effect (number_key : Q -> string) (request : Request)
      (w w' : World) (r : result Response) :
  Spec.store_wf w ->
  upload number_key request w = (r, w') ->
  Spec.store_wf w' /\
  next_pk w <= next_pk w' /\
  forall v, v <> req_user request -> Spec.owned v (table w') = Spec.owned v (table w).
Proof.
  intros Hwf Hup.
  destruct (upload_cases _ _ _ _ _ Hup) as (resp & _ & Hcases).
  destruct Hcases as [(_ & ->)|[(_ & _ & Ht & Hn)|Hrun]].
  - auto.
  - unfold Spec.store_wf. rewrite Ht, Hn. destruct Hwf. auto.
  - destruct Hrun as (df & meta & st & _ & _ & _ & _ & Hrun). cbv zeta in Hrun.
    set (d := new_dataset number_key request (Utils.dataframe_to_json df) st (next_pk w)) in *.
    set (u := req_user request) in *.
    destruct Hrun as (r' & Hloop & _).
    rewrite beyond_cap_or_nothing in Hloop.
    pose proof (created_distinct w d Hwf eq_refl) as Hwf1.
    destruct (delete_each_inv _ _ _ _ Hloop) as (Hn & _).
    destruct (delete_each_effect _ _ _ _ Hloop) as (Hf & Hrows & Hwf').
    cbn [created table next_pk] in Hn, Hf, Hrows.
    split; [|split].
    + apply Hwf'; [exact Hwf1|]. apply Forall_forall. intros o Ho.
      apply beyond_cap_rows in Ho. destruct Ho as (Ho & _).
      destruct Hwf1 as (_ & Hlt). rewrite Forall_forall in Hlt. now apply Hlt.
    + lia.
    + intros v Hv.
      destruct (retention_keeps_newest u (table w ++ [d]) (proj1 Hwf1)) as (_ & Hothers).
      rewrite <- (owned_app_other v (table w) d) by (simpl; fold u; congruence).
      rewrite <- (Hothers v Hv). unfold Spec.owned.
      rewrite <- Hf, (filter_comm (ORM.owned_by v)).
      symmetry. apply filter_all. intros x Hx.
      apply filter_In in Hx. destruct Hx as (Hx & Hxv).
      unfold ORM.owned_by in Hxv. apply Nat.eqb_eq in Hxv.
      apply not_among_true. intros o Ho Hpk.
      destruct (beyond_cap_rows _ _ _ Ho) as (Hot & Hou).
      destruct (Hrows x Hx) as [Hxt|(o2 & Ho2 & ->)].
      * rewrite (pk_identifies _ o x (proj1 Hwf1) Hot Hxt Hpk) in Hou. congruence.
      * destruct (beyond_cap_rows _ _ _ Ho2) as (_ & Hou2). simpl in Hxv. congruence.
Qed.

(** X1. Whatever the answer of an upload (201, 400 or 500, the deletion of
    old datasets interrupted or not), primary keys stay distinct and below
    the sequence, which never goes back. *)
Theorem upload_preserves_store_wf (number_key : Q -> string) (request : Request)
        (w w' : World) (r : result Response) :
  Spec.store_wf w ->
  upload number_key request w = (r, w') ->
  NoDup (map pk (table w')) /\
  Forall (fun d => pk d < next_pk w') (table w') /\
  next_pk w <= next_pk w'.
Proof.
  intros Hwf Hup.
  destruct (upload_effect _ _ _ _ _ Hwf Hup) as ((Hnd & Hlt) & Hn & _). auto.
Qed.

(** X2. Whatever the answer of an upload, the datasets of every other user
    are exactly as they were. *)
Theorem upload_isolates_users (number_key : Q -> string) (request : Request)
        (w w' : World) (r : result Response) (v : nat) :
  Spec.store_wf w ->
  upload number_key request w = (r, w') ->
  v <> req_user request ->
  filter (ORM.owned_by v) (table w') = filter (ORM.owned_by v) (table w).
Proof.
  intros Hwf Hup Hv.
  destruct (upload_effect _ _ _ _ _ Hwf Hup) as (_ & _ & H). now apply H.
Qed.

Lemma sample_table_wf (o : list bool) : Spec.store_wf (mkWorld Samples.full_table 7 o).
Proof.
  split; simpl.
  - repeat constructor; simpl; intuition discriminate.
  - repeat constructor.
Qed.

Lemma upload_preserves_store_wf_witness :
  exists r w',
    upload Samples.plain_key Samples.request1 Samples.failing_world = (r, w') /\
    NoDup (map pk (table w')) /\ 7 <= next_pk w'.
Proof.
  destruct (upload Samples.plain_key Samples.request1 Samples.failing_world)
    as [r w'] eqn:E.
  destruct (upload_preserves_store_wf _ _ _ _ _ (sample_table_wf _) E) as (Hnd & _ & Hn).
  exists r, w'. split; [reflexivity|]. split; [exact Hnd | exact Hn].
Defined.

Lemma upload_isolates_users_witness :
  exists r w',
    upload Samples.plain_key Samples.request1 Samples.failing_world = (r, w') /\
    filter (ORM.owned_by 2) (table w') = [Samples.stored 3 2 250].
Proof.
  destruct (upload Samples.plain_key Samples.request1 Samples.failing_world)
    as [r w'] eqn:E.
  exists r, w'. split; [reflexivity|].
  rewrite (upload_isolates_users _ _ _ _ _ 2 (sample_table_wf _) E); [reflexivity|].
  simpl. discriminate.
Defined.

(** ** Keeping the new dataset, and finding it again *)

(** What a successful upload leaves in the table. *)
Lemma upload_success_table (number_key : Q -> string) (request : Request)
      (w w' : World) (resp : Response) :
  upload number_key request w = (inr resp, w') ->
  status resp = 201 ->
  exists d,
    resp = mkResponse 201 (Uploaded d (Models.get_statistics_summary d)) /\
    pk d = next_pk w /\ user d = req_user request /\
    uploaded_at d = req_now request /\
    next_pk w' = S (next_pk w) /\
    table w' = filter (not_among (beyond_cap (req_user request) (table w ++ [d])))
                      (table w ++ [d]).
Proof.
  intros Hup H201.
  destruct (upload_cases _ _ _ _ _ Hup) as (resp' & Hr & Hcases).
  inversion Hr. subst resp'. clear Hr.
  destruct Hcases as [(H400 & _)|[(H500 & _)|Hrun]]; [congruence | congruence |].
  destruct Hrun as (df & meta & st & _ & _ & _ & _ & Hrun). cbv zeta in Hrun.
  destruct Hrun as (r' & Hloop & Hresp).
  rewrite beyond_cap_or_nothing in Hloop.
  destruct r' as [e|[]]; [congruence|].
  destruct (delete_each_ok _ _ _ Hloop) as (Hn & Ht).
  eexists. split; [exact Hresp|]. repeat split; assumption.
Qed.

(** In a descending sort the first place goes to the one element above all
    the others. *)
Lemma sort_desc_head (key : Dataset -> Z) (l : list Dataset) (x : Dataset) :
  In x l ->
  (forall y, In y l -> pk y <> pk x -> (key y < key x)%Z) ->
  NoDup (map pk l) ->
  exists rest, sort_desc key l = x :: rest.
Proof.
  intros Hx Hmax Hnd.
  pose proof (sort_desc_perm key l) as Hperm.
  pose proof (sort_desc_sorted key l) as Hs.
  destruct (sort_desc key l) as [|h rest].
  - apply Permutation_nil in Hperm. subst. contradiction.
  - exists rest. f_equal.
    assert (Hh : In h l) by (apply (Permutation_in _ Hperm); now left).
    destruct (Nat.eq_dec (pk h) (pk x)) as [Heq|Hne].
    + now apply (pk_identifies l).
    + exfalso. specialize (Hmax h Hh Hne).
      apply (Permutation_in _ (Permutation_sym Hperm)) in Hx.
      destruct Hx as [->|Hx]; [congruence|].
      inversion Hs as [|? ? _ Hall]; subst.
      rewrite Forall_forall in Hall. specialize (Hall x Hx).
      unfold ge_key in Hall. lia.
Qed.

(** X3. When the clock of the upload is ahead of the upload times of the
    datasets the user has, a successful upload can be read back: retrieve
    with the new key answers 200 with the dataset of the upload response,
    and statistics answers its summary. *)
Theorem upload_then_retrieve (number_key : Q -> string) (request : Request)
        (w w' : World) (resp : Response) :
  Spec.store_wf w ->
  (forall r, In r (table w) -> user r = req_user request ->
             (uploaded_at r < req_now request)%Z) ->
  upload number_key request w = (inr resp, w') ->
  status resp = 201 ->
  exists d,
    body resp = Uploaded d (Models.get_statistics_summary d) /\
    pk d = next_pk w /\
    In d (table w') /\
    retrieve (req_user request) (pk d) w'
      = (inr (mkResponse 200 (Detail d (Models.get_statistics_summary d))), w') /\
    statistics (req_user request) (pk d) w'
      = (inr (mkResponse 200 (Statistics (Models.get_statistics_summary d))), w').
Proof.
  intros Hwf Hclock Hup H201.
  destruct (upload_success_table _ _ _ _ _ Hup H201)
    as (d & -> & Hpk & Hu & Hat & Hn & Ht).
  set (u := req_user request) in *.
  pose proof (created_distinct w d Hwf Hpk) as Hwf1.
  assert (Hwf' : Spec.store_wf w').
  { eapply filter_wf; [exact Hwf1 | exact Ht | exact Hn]. }
  destruct (retention_keeps_newest u (table w ++ [d]) (proj1 Hwf1)) as (Hperm & _).
  cbn [created table] in Hperm. rewrite <- Ht in Hperm.
  assert (Hd1 : In d (filter (ORM.owned_by u) (table w ++ [d]))).
  { apply filter_In. split; [apply in_or_app; right; now left|].
    unfold ORM.owned_by. now apply Nat.eqb_eq. }
  destruct (sort_desc_head uploaded_at _ d Hd1) as (rest & Hsorted).
  { intros y Hy Hne. apply filter_In in Hy. destruct Hy as (Hy & Hyu).
    unfold ORM.owned_by in Hyu. apply Nat.eqb_eq in Hyu.
    apply in_app_or in Hy. destruct Hy as [Hy|[<-|[]]]; [|congruence].
    rewrite Hat. now apply Hclock. }
  { apply NoDup_map_filter. exact (proj1 Hwf1). }
  assert (Hin : In d (table w')).
  { assert (Hk : In d (Spec.owned u (table w'))).
    { apply (Permutation_in _ (Permutation_sym Hperm)).
      unfold ORM.filter_user_newest_first. rewrite Hsorted. now left. }
    unfold Spec.owned in Hk. apply filter_In in Hk. tauto. }
  assert (Hget : ORM.objects_get (pk d) u w' = (inr d, w')).
  { unfold ORM.objects_get.
    destruct (find _ (table w')) as [d0|] eqn:Hf.
    - apply find_some in Hf. destruct Hf as (Hin0 & Hb).
      apply andb_true_iff in Hb. destruct Hb as (Hk & _).
      unfold ORM.has_pk in Hk. apply Nat.eqb_eq in Hk.
      now rewrite (pk_identifies _ d0 d (proj1 Hwf') Hin0 Hin Hk).
    - exfalso. apply (find_none _ _ Hf) in Hin.
      unfold ORM.has_pk, ORM.owned_by in Hin.
      rewrite Nat.eqb_refl in Hin. simpl in Hin.
      apply Nat.eqb_neq in Hin. contradiction. }
  exists d. simpl. split; [reflexivity|]. split; [exact Hpk|]. split; [exact Hin|].
  unfold retrieve, statistics, try_except, bind. rewrite Hget. split; reflexivity.
Qed.

Lemma upload_then_retrieve_witness :
  exists resp w' d,
    upload Samples.plain_key Samples.request1 Samples.full_world = (inr resp, w') /\
    pk d = 7 /\
    retrieve 1 7 w'
      = (inr (mkResponse 200 (Detail d (Models.get_statistics_summary d))), w').
Proof.
  destruct (upload Samples.plain_key Samples.request1 Samples.full_world)
    as [[e|resp] w'] eqn:E.
  - exfalso. vm_compute in E. discriminate.
  - assert (H201 : status resp = 201).
    { pose proof E as E'. vm_compute in E'. inversion E'. reflexivity. }
    assert (Hclock : forall r, In r (table Samples.full_world) ->
                            user r = req_user Samples.request1 ->
                            (uploaded_at r < req_now Samples.request1)%Z).
    { intros r Hr _. simpl in Hr.
      repeat (destruct Hr as [<-|Hr]; [simpl; lia|]). destruct Hr. }
    destruct (upload_then_retrieve _ _ _ _ _ (sample_table_wf _) Hclock E H201)
      as (d & _ & Hpk & _ & Hr & _).
    simpl in Hpk. rewrite Hpk in Hr.
    exists resp, w', d. split; [reflexivity|]. split; [exact Hpk | exact Hr].
Defined.

(** ** Deleting a dataset *)

Lemma objects_get_found (k u : nat) (w : World) (d : Dataset) :
  Spec.store_wf w -> In d (table w) -> pk d = k -> user d = u ->
  ORM.objects_get k u w = (inr d, w).
Proof.
  intros (Hnd & _) Hin Hk Hu. unfold ORM.objects_get.
  destruct (find _ (table w)) as [d0|] eqn:Hf.
  - apply find_some in Hf. destruct Hf as (Hin0 & Hb).
    apply andb_true_iff in Hb. destruct Hb as (Hk0 & _).
    unfold ORM.has_pk in Hk0. apply Nat.eqb_eq in Hk0.
    rewrite (pk_identifies _ d0 d Hnd Hin0 Hin); [reflexivity | congruence].
  - exfalso. apply (find_none _ _ Hf) in Hin.
    unfold ORM.has_pk, ORM.owned_by in Hin. subst.
    rewrite !Nat.eqb_refl in Hin. discriminate.
Qed.

Lemma no_row_after_filter (k u : nat) (t : list Dataset) (w' : World) :
  table w' = filter (fun x => negb (ORM.has_pk k x)) t ->
  forall d, In d (table w') -> pk d = k -> user d <> u.
Proof.
  intros Ht d Hd Hk. rewrite Ht in Hd. apply filter_In in Hd.
  destruct Hd as (_ & Hb). unfold ORM.has_pk in Hb.
  rewrite Hk, Nat.eqb_refl in Hb. discriminate.
Qed.

(** X4. Deleting a dataset of one's own: either the view answers 204, and
    then exactly the rows of that key are gone and the key reads as not
    found from then on; or the storage refuses a write, the exception
    leaves the view, and the rows of every other key are as they were.
    When the storage accepts every write the answer is 204. *)
Theorem destroy_own_dataset (u k : nat) (w w' : World) (d : Dataset)
        (r : result Response) :
  Spec.store_wf w -> In d (table w) -> pk d = k -> user d = u ->
  destroy u k w = (r, w') ->
  ((r = inr (mkResponse 204 (Message "Dataset deleted successfully")) /\
    table w' = filter (fun x => negb (ORM.has_pk k x)) (table w) /\
    retrieve u k w' = (inr (mkResponse 404 (Error "Dataset not found")), w') /\
    destroy u k w' = (inr (mkResponse 404 (Error "Dataset not found")), w'))
   \/
   (r = inl StorageError /\
    filter (fun x => negb (ORM.has_pk k x)) (table w')
    = filter (fun x => negb (ORM.has_pk k x)) (table w))) /\
  (outcomes w = [] ->
   r = inr (mkResponse 204 (Message "Dataset deleted successfully"))).
Proof.
  intros Hwf Hin Hk Hu. unfold destroy, try_except, bind at 1.
  rewrite (objects_get_found k u w d Hwf Hin Hk Hu).
  unfold bind at 1.
  destruct (ORM.file_delete d w) as [[e|d'] w1] eqn:Hfd;
    destruct (file_delete_inv _ _ _ _ Hfd) as (Hn1 & Hf1 & Hpk).
  - pose proof (file_delete_raises _ _ _ _ Hfd) as ->. simpl. unfold raise.
    intros H. inversion H. subst. split.
    + right. split; [reflexivity | exact Hf1].
    + intros Ho. exfalso. unfold ORM.file_delete in Hfd.
      destruct (file d); [|discriminate].
      unfold bind, ORM.storage_op in Hfd. rewrite Ho in Hfd.
      destruct (save_run (Models.set_file d None) w) as (w2 & Hs & _).
      rewrite Hs in Hfd. discriminate.
  - specialize (Hpk d' eq_refl). unfold bind at 1.
    destruct (ORM.delete d' w1) as [[e|[]] w2] eqn:Hdel;
      destruct (delete_inv _ _ _ _ Hdel) as (Hn2 & Ht2).
    + pose proof (delete_raises _ _ _ _ Hdel) as ->. simpl. unfold raise.
      intros H. inversion H. subst. split.
      * right. split; [reflexivity|]. now rewrite Ht2.
      * intros Ho. exfalso.
        assert (Ho1 : outcomes w1 = []).
        { unfold ORM.file_delete in Hfd. destruct (file d).
          - unfold bind, ORM.storage_op in Hfd. rewrite Ho in Hfd.
            destruct (save_run (Models.set_file d None) w) as (w3 & Hs & _ & Ho3 & _).
            rewrite Hs in Hfd. unfold ret in Hfd. inversion Hfd. subst. congruence.
          - unfold ret in Hfd. inversion Hfd. subst. exact Ho. }
        unfold ORM.delete, bind, ORM.storage_op in Hdel. rewrite Ho1 in Hdel.
        discriminate.
    + unfold ret. intros H. inversion H. subst. split; [|reflexivity].
      left. rewrite Hpk in Ht2.
      assert (Ht : table w' = filter (fun x => negb (ORM.has_pk (pk d) x)) (table w)).
      { rewrite Ht2. exact Hf1. }
      split; [reflexivity|]. split; [exact Ht|].
      destruct (views_not_found (user d) (pk d) w') as (R & D & _).
      { eapply no_row_after_filter. exact Ht. }
      split; [exact R | exact D].
Qed.

Lemma destroy_own_dataset_witness :
  exists w',
    destroy 1 4 Samples.full_world
      = (inr (mkResponse 204 (Message "Dataset deleted successfully")), w') /\
    map pk (table w') = [1; 2; 3; 5; 6].
Proof.
  destruct (destroy 1 4 Samples.full_world) as [r w'] eqn:E.
  destruct (destroy_own_dataset 1 4 Samples.full_world w' (Samples.stored 4 1 300) r)
    as (Hcases & Hok).
  - apply sample_table_wf.
  - simpl. auto.
  - reflexivity.
  - reflexivity.
  - exact E.
  - rewrite (Hok eq_refl) in *. exists w'. split; [reflexivity|].
    destruct Hcases as [(_ & Ht & _)|(Hr & _)]; [|discriminate].
    rewrite Ht. reflexivity.
Defined.

(** ** Listing and downloading *)

(** X5. The listing never changes the table and shows at most 5 datasets,
    all of the caller, newest first: each item is the item of a stored row
    of the caller, [count] is the number of items, which is the smaller of
    5 and the number of datasets the caller owns, and no dataset of the
    caller that is left out is newer than one that is shown. *)
Theorem list_shows_own_newest (username : nat -> string) (u : nat) (w : World) :
  exists listing,
    list_datasets username u w = (inr listing, w) /\
    count listing = List.length (results listing) /\
    List.length (results listing)
      = Nat.min 5 (List.length (filter (ORM.owned_by u) (table w))) /\
    (exists shown,
        results listing = map (to_list_item username) shown /\
        (forall d, In d shown -> In d (table w) /\ user d = u) /\
        StronglySorted (fun a b => (uploaded_at b <= uploaded_at a)%Z) shown /\
        (forall d hidden,
            In d shown -> In hidden (table w) -> user hidden = u ->
            ~ In hidden shown -> (uploaded_at hidden <= uploaded_at d)%Z)).
Proof.
  set (ranked := ORM.filter_user_newest_first u (table w)).
  assert (Hperm : Permutation ranked (filter (ORM.owned_by u) (table w)))
    by apply sort_desc_perm.
  assert (Hs : StronglySorted (ge_key uploaded_at) ranked) by apply sort_desc_sorted.
  eexists. split; [reflexivity|]. cbn [count results]. fold ranked.
  split; [now rewrite length_map|].
  split; [rewrite length_map, length_firstn; now rewrite (Permutation_length Hperm)|].
  exists (firstn 5 ranked). split; [reflexivity|]. split; [|split].
  - intros d Hd.
    assert (Hin : In d ranked).
    { rewrite <- (firstn_skipn 5 ranked). apply in_or_app. now left. }
    apply (Permutation_in _ Hperm) in Hin. apply filter_In in Hin.
    destruct Hin as (Hin & Hu). unfold ORM.owned_by in Hu.
    apply Nat.eqb_eq in Hu. auto.
  - assert (Hpre : forall n (l : list Dataset),
               StronglySorted (ge_key uploaded_at) l ->
               StronglySorted (ge_key uploaded_at) (firstn n l)).
    { intros n l H. revert n. induction H as [|x l Hl IH Hx]; intros [|n]; simpl;
        try constructor; auto.
      rewrite Forall_forall in Hx |- *. intros y Hy. apply Hx.
      rewrite <- (firstn_skipn n l). apply in_or_app. now left. }
    exact (Hpre 5 ranked Hs).
  - intros d hidden Hd Hh Hu Hnot.
    apply (sorted_prefix_dominates uploaded_at 5 ranked Hs); [exact Hd|].
    assert (Hin : In hidden ranked).
    { apply (Permutation_in _ (Permutation_sym Hperm)). apply filter_In.
      split; [exact Hh|]. unfold ORM.owned_by. now apply Nat.eqb_eq. }
    rewrite <- (firstn_skipn 5 ranked) in Hin. apply in_app_or in Hin.
    destruct Hin; [contradiction | assumption].
Qed.

(** X6. After an upload that succeeds the listing hides nothing: its items
    are the datasets the caller owns, each once. *)
Theorem list_after_upload (number_key : Q -> string) (username : nat -> string)
        (request : Request) (w w' : World) (resp : Response) :
  Spec.store_wf w ->
  upload number_key request w = (inr resp, w') ->
  status resp = 201 ->
  exists listing,
    list_datasets username (req_user request) w' = (inr listing, w') /\
    Permutation (map li_id (results listing))
                (map pk (filter (ORM.owned_by (req_user request)) (table w'))) /\
    NoDup (map li_id (results listing)).
Proof.
  intros Hwf Hup H201.
  destruct (upload_success_table _ _ _ _ _ Hup H201)
    as (d & _ & Hpk & _ & _ & Hn & Ht).
  set (u := req_user request) in *.
  pose proof (created_distinct w d Hwf Hpk) as Hwf1.
  destruct (retention_keeps_newest u (table w ++ [d]) (proj1 Hwf1)) as (Hperm & _).
  cbn [created table] in Hperm. rewrite <- Ht in Hperm.
  assert (Hwf' : Spec.store_wf w').
  { eapply filter_wf; [exact Hwf1 | exact Ht | exact Hn]. }
  assert (Hlen : List.length (Spec.owned u (table w')) <= 5).
  { rewrite (Permutation_length Hperm), length_firstn. apply Nat.le_min_l. }
  eexists. split; [reflexivity|]. cbn [count results].
  assert (Hall : firstn 5 (ORM.filter_user_newest_first u (table w'))
                 = ORM.filter_user_newest_first u (table w')).
  { apply firstn_all2. unfold ORM.filter_user_newest_first.
    rewrite sort_desc_length. exact Hlen. }
  rewrite Hall, map_map. simpl.
  assert (Hp : Permutation (map pk (ORM.filter_user_newest_first u (table w')))
                           (map pk (filter (ORM.owned_by u) (table w')))).
  { apply Permutation_map, sort_desc_perm. }
  split; [exact Hp|].
  eapply Permutation_NoDup; [apply Permutation_sym, Hp|].
  apply NoDup_map_filter. exact (proj1 Hwf').
Qed.

Lemma list_after_upload_witness :
  exists resp w' listing,
    upload Samples.plain_key Samples.request1 Samples.full_world = (inr resp, w') /\
    list_datasets (fun _ => "alice") 1 w' = (inr listing, w') /\
    NoDup (map li_id (results listing)).
Proof.
  destruct (upload Samples.plain_key Samples.request1 Samples.full_world)
    as [[e|resp] w'] eqn:E.
  - exfalso. vm_compute in E. discriminate.
  - assert (H201 : status resp = 201).
    { pose proof E as E'. vm_compute in E'. inversion E'. reflexivity. }
    destruct (list_after_upload _ (fun _ => "alice") _ _ _ _ (sample_table_wf _) E H201)
      as (listing & Hl & _ & Hnd).
    exists resp, w', listing. split; [reflexivity|]. split; [exact Hl | exact Hnd].
Defined.

(** X7. Downloading a report never changes the table and always answers.
    For a key that belongs to another user the answer is the one given for
    a key that no dataset has: 404 "Dataset not found". *)
Theorem download_pdf_hides_existence (number_str : Q -> string)
        (strftime : string -> Z -> string) (username : nat -> string)
        (now : Z) (u k : nat) (w_absent w_other : World) (d : Dataset) :
  (forall r, In r (table w_absent) -> pk r <> k) ->
  NoDup (map pk (table w_other)) ->
  In d (table w_other) -> pk d = k -> user d <> u ->
  download_pdf number_str strftime username now u k w_absent
    = (inr (Plain (mkResponse 404 (Error "Dataset not found"))), w_absent) /\
  download_pdf number_str strftime username now u k w_other
    = (inr (Plain (mkResponse 404 (Error "Dataset not found"))), w_other) /\
  (forall w, exists answer,
      download_pdf number_str strftime username now u k w = (inr answer, w)).
Proof.
  intros Habs Hnd Hin Hpk Hu.
  assert (Hnf : forall w,
             (forall r, In r (table w) -> pk r = k -> user r <> u) ->
             download_pdf number_str strftime username now u k w
             = (inr (Plain (mkResponse 404 (Error "Dataset not found"))), w)).
  { intros w H. unfold download_pdf, try_except, bind.
    now rewrite (objects_get_does_not_exist k u w H). }
  split; [|split].
  - apply Hnf. intros r Hr Hk. exfalso. exact (Habs r Hr Hk).
  - apply Hnf. intros r Hr Hk.
    rewrite (pk_identifies _ r d Hnd Hr Hin); [exact Hu | congruence].
  - intros w. unfold download_pdf, try_except, bind, ORM.objects_get, lift.
    destruct (find _ (table w)) as [d0|].
    + destruct (generate_pdf_report _ _ _ _ d0) as [e|pdf]; simpl.
      * destruct e; eexists; reflexivity.
      * eexists; reflexivity.
    + simpl. eexists; reflexivity.
Qed.

Lemma download_pdf_hides_existence_witness :
  download_pdf Samples.plain_key (fun _ _ => "2026") (fun _ => "alice") 0 1 3
               Samples.empty_world
  = (inr (Plain (mkResponse 404 (Error "Dataset not found"))), Samples.empty_world) /\
  download_pdf Samples.plain_key (fun _ _ => "2026") (fun _ => "alice") 0 1 3
               Samples.full_world
  = (inr (Plain (mkResponse 404 (Error "Dataset not found"))), Samples.full_world).
Proof.
  destruct (download_pdf_hides_existence Samples.plain_key (fun _ _ => "2026")
              (fun _ => "alice") 0 1 3 Samples.empty_world Samples.full_world
              (Samples.stored 3 2 250)) as (H1 & H2 & _).
  - intros r [].
  - simpl. repeat constructor; simpl; intuition discriminate.
  - simpl. auto.
  - reflexivity.
  - simpl. discriminate.
  - split; assumption.
Defined.

(** ** What the validator accepts, and what it answers to missing columns *)








(** ** What parsing does to a frame *)

Lemma is_at_inv (col : string) (cols : list string) (j : nat) :
  is_at col cols j = true -> Pandas.col_index col cols = Some j.
Proof.
  unfold is_at. destruct (Pandas.col_index col cols) as [i|]; [|discriminate].
  intros H. apply Nat.eqb_eq in H. now subst.
Qed.



(** ** Parsing twice *)

Lemma lstrip_idem (l : list ascii) :
  PyStr.lstrip_chars (PyStr.lstrip_chars l) = PyStr.lstrip_chars l.
Proof.
  induction l as [|c l IH]; simpl; [reflexivity|].
  destruct (PyStr.is_space c) eqn:E; [exact IH|]. simpl. now rewrite E.
Qed.

Lemma lstrip_app (x y : list ascii) :
  PyStr.lstrip_chars (x ++ y) =
  match PyStr.lstrip_chars x with
  | [] => PyStr.lstrip_chars y
  | z => z ++ y
  end.
Proof.
  induction x as [|c x IH]; simpl; [reflexivity|].
  destruct (PyStr.is_space c); [exact IH | reflexivity].
Qed.

Lemma lstrip_head (l : list ascii) :
  PyStr.lstrip_chars l = [] \/
  exists c l', PyStr.lstrip_chars l = c :: l' /\ PyStr.is_space c = false.
Proof.
  induction l as [|c l IH]; simpl; [now left|].
  destruct (PyStr.is_space c) eqn:E; [exact IH|]. right. eauto.
Qed.

(** Stripping the end of a list that begins with no space leaves its
    beginning alone. *)
Lemma lstrip_after_rstrip (c : ascii) (l : list ascii) :
  PyStr.is_space c = false ->
  PyStr.lstrip_chars (rev (PyStr.lstrip_chars (rev (c :: l))))
  = rev (PyStr.lstrip_chars (rev (c :: l))).
Proof.
  intros Hc. simpl rev at 2 4. rewrite lstrip_app.
  destruct (PyStr.lstrip_chars (rev l)) as [|z zs] eqn:E.
  - simpl. rewrite Hc. simpl. now rewrite Hc.
  - rewrite rev_app_distr. simpl. now rewrite Hc.
Qed.

Lemma strip_idem (s : string) : PyStr.strip (PyStr.strip s) = PyStr.strip s.
Proof.
  unfold PyStr.strip. rewrite list_ascii_of_string_of_list_ascii. f_equal.
  destruct (lstrip_head (list_ascii_of_string s)) as [->|(c & l' & -> & Hc)].
  - reflexivity.
  - rewrite (lstrip_after_rstrip c l' Hc), rev_involutive, lstrip_idem. reflexivity.
Qed.

Lemma imputed_twice (s : list cell) :
  map (Spec.imputed (map (Spec.imputed s) s)) (map (Spec.imputed s) s)
  = map (Spec.imputed s) s.
Proof.
  set (s' := map (Spec.imputed s) s).
  assert (H : forall c, In c s' ->
               (exists q, c = Num q) \/ (c = NA /\ Spec.known_values s' = [])).
  { intros c Hc. unfold s' in Hc. apply in_map_iff in Hc.
    destruct Hc as (c0 & <- & _). unfold Spec.imputed.
    destruct (Spec.known_values s) as [|q0 l0] eqn:Hk.
    - assert (Hk' : Spec.known_values s' = []).
      { unfold s'. now rewrite (known_values_imputed_none s s Hk). }
      destruct c0; eauto.
    - destruct c0; eauto. }
  rewrite <- (map_id s') at 3. apply map_ext_in. intros c Hc.
  destruct (H c Hc) as [(q & ->)|(-> & Hk)]; [reflexivity|].
  unfold Spec.imputed. now rewrite Hk.
Qed.

Lemma fillna_text_twice (s : list cell) :
  map (Pandas.fillna_text "Unknown") (map (Pandas.fillna_text "Unknown") s)
  = map (Pandas.fillna_text "Unknown") s.
Proof. rewrite map_map. apply map_ext. now intros []. Qed.

(** Frames with the same labels and the same columns give the same records. *)
Lemma dataframe_to_json_ext (df df' : DataFrame) :
  df_columns df' = df_columns df ->
  (forall j, Pandas.series j df' = Pandas.series j df) ->
  Utils.dataframe_to_json df' = Utils.dataframe_to_json df.
Proof.
  unfold Utils.dataframe_to_json, Pandas.series. intros -> Hser.
  generalize (combine (seq 0 (List.length (df_columns df))) (df_columns df)). intros L.
  revert Hser. generalize (df_rows df) as rows, (df_rows df') as rows'.
  induction rows as [|r rows IH]; intros [|r' rows'] Hser; simpl.
  - reflexivity.
  - specialize (Hser 0). discriminate.
  - specialize (Hser 0). discriminate.
  - f_equal.
    + apply map_ext. intros ic. f_equal.
      specialize (Hser (fst ic)). simpl in Hser. congruence.
    + apply IH. intros j. specialize (Hser j). simpl in Hser. congruence.
Qed.

(** X11. Parsing is idempotent: the frame that parsing produces, parsed
    again, comes out with the same labels, the same columns and the same
    records. *)
Theorem parse_csv_file_idempotent (file : UploadedFile) (df0 df : DataFrame)
        (meta : Metadata) :
  file_csv file = Frame df0 ->
  Utils.parse_csv_file file = inr (df, meta) ->
  exists df2 meta2,
    Utils.parse_csv_file (mkFile (file_name file) (file_size file) (Frame df))
    = inr (df2, meta2) /\
    df_columns df2 = df_columns df /\
    (forall j, Pandas.series j df2 = Pandas.series j df) /\
    Utils.dataframe_to_json df2 = Utils.dataframe_to_json df /\
    meta2 = meta.
Proof.
  intros Hcsv Hp.
  destruct (parse_frame_spec file df0 Hcsv) as (df' & Hp' & Hcols & Hlen & Hser).
  rewrite Hp in Hp'. inversion Hp' as [[Hdf Hmeta]]. subst df'. clear Hp'.
  destruct (parse_frame_spec (mkFile (file_name file) (file_size file) (Frame df))
                             df eq_refl)
    as (df2 & Hp2 & Hcols2 & Hlen2 & Hser2).
  assert (Hc : map PyStr.strip (df_columns df) = df_columns df).
  { rewrite Hcols, map_map. apply map_ext. intros. apply strip_idem. }
  rewrite Hc in Hcols2, Hser2, Hp2.
  assert (Hsame : forall j, Pandas.series j df2 = Pandas.series j df).
  { intros j. rewrite Hser2, Hser. cbv beta zeta. rewrite Hcols.
    set (cols := map PyStr.strip (df_columns df0)).
    destruct (is_at "Flowrate" cols j) eqn:E1;
      [apply is_at_inv in E1;
       rewrite ?(is_at_other _ "Pressure" _ _ E1) by discriminate;
       rewrite ?(is_at_other _ "Temperature" _ _ E1) by discriminate;
       rewrite ?(is_at_other _ "Equipment_Name" _ _ E1) by discriminate;
       rewrite ?(is_at_other _ "Type" _ _ E1) by discriminate;
       apply imputed_twice|].
    destruct (is_at "Pressure" cols j) eqn:E2;
      [apply is_at_inv in E2;
       rewrite ?(is_at_other _ "Temperature" _ _ E2) by discriminate;
       rewrite ?(is_at_other _ "Equipment_Name" _ _ E2) by discriminate;
       rewrite ?(is_at_other _ "Type" _ _ E2) by discriminate;
       apply imputed_twice|].
    destruct (is_at "Temperature" cols j) eqn:E3;
      [apply is_at_inv in E3;
       rewrite ?(is_at_other _ "Equipment_Name" _ _ E3) by discriminate;
       rewrite ?(is_at_other _ "Type" _ _ E3) by discriminate;
       apply imputed_twice|].
    destruct (is_at "Equipment_Name" cols j) eqn:E4;
      [apply is_at_inv in E4;
       rewrite ?(is_at_other _ "Type" _ _ E4) by discriminate;
       apply fillna_text_twice|].
    destruct (is_at "Type" cols j); [apply fillna_text_twice | reflexivity]. }
  eexists df2, _. split; [exact Hp2|]. split; [exact Hcols2|].
  split; [exact Hsame|]. split; [now apply dataframe_to_json_ext|].
  simpl. rewrite Hlen2, Hcols.
  reflexivity.
Qed.

Lemma parse_csv_file_idempotent_witness :
  exists df meta df2,
    Utils.parse_csv_file Samples.sparse = inr (df, meta) /\
    Utils.parse_csv_file (mkFile "sparse.csv" 120 (Frame df)) = inr (df2, meta) /\
    Utils.dataframe_to_json df2 = Utils.dataframe_to_json df.
Proof.
  destruct (Utils.parse_csv_file Samples.sparse) as [e|[df meta]] eqn:Hp.
  - exfalso. vm_compute in Hp. discriminate.
  - destruct (parse_csv_file_idempotent Samples.sparse Samples.sparse_frame df meta
                eq_refl Hp) as (df2 & meta2 & H2 & _ & _ & Hj & ->).
    exists df, meta, df2. split; [reflexivity|]. split; [exact H2 | exact Hj].
Defined.

(** ** The records of a validated file *)









(** ** The statistics of a validated file *)




(** ** Counting the values of a column *)

Lemma cell_eqb_refl (c : cell) : Pandas.cell_eqb c c = true.
Proof.
  destruct c; simpl; [reflexivity | | apply String.eqb_refl].
  apply Qeq_bool_iff. reflexivity.
Qed.

Lemma cell_eqb_sym (a b : cell) : Pandas.cell_eqb a b = Pandas.cell_eqb b a.
Proof.
  destruct a, b; simpl; try reflexivity.
  - destruct (Qeq_bool q q0) eqn:E1, (Qeq_bool q0 q) eqn:E2; try reflexivity.
    + apply Qeq_bool_iff in E1. symmetry in E1. apply Qeq_bool_iff in E1. congruence.
    + apply Qeq_bool_iff in E2. symmetry in E2. apply Qeq_bool_iff in E2. congruence.
  - apply String.eqb_sym.
Qed.

Lemma cell_eqb_trans (a b c : cell) :
  Pandas.cell_eqb a b = true -> Pandas.cell_eqb b c = true -> Pandas.cell_eqb a c = true.
Proof.
  destruct a, b, c; simpl; try discriminate; auto.
  - intros H1 H2. apply Qeq_bool_iff in H1, H2. apply Qeq_bool_iff.
    now rewrite H1.
  - intros H1 H2. apply String.eqb_eq in H1, H2. subst. apply String.eqb_refl.
Qed.

(** Equal values match the same keys. *)
Lemma cell_eqb_congr (a b c : cell) :
  Pandas.cell_eqb a b = true -> Pandas.cell_eqb c a = Pandas.cell_eqb c b.
Proof.
  intros H. destruct (Pandas.cell_eqb c a) eqn:E1, (Pandas.cell_eqb c b) eqn:E2;
    try reflexivity.
  - rewrite (cell_eqb_trans c a b E1 H) in E2. discriminate.
  - rewrite cell_eqb_sym in H. rewrite (cell_eqb_trans c b a E2 H) in E1. discriminate.
Qed.

Lemma bump_spec (c : cell) (acc : list (cell * nat)) :
  (exists k n pre post,
      acc = pre ++ (k, n) :: post /\ Pandas.cell_eqb c k = true /\
      Pandas.bump c acc = pre ++ (k, S n) :: post)
  \/ ((forall p, In p acc -> Pandas.cell_eqb c (fst p) = false) /\
      Pandas.bump c acc = acc ++ [(c, 1)]).
Proof.
  induction acc as [|[k n] acc IH]; simpl.
  - right. split; [intros p []|reflexivity].
  - destruct (Pandas.cell_eqb c k) eqn:E.
    + left. exists k, n, [], acc. auto.
    + destruct IH as [(k' & n' & pre & post & -> & Hk & ->)|(Hnone & ->)].
      * left. exists k', n', ((k, n) :: pre), post. auto.
      * right. split; [|reflexivity]. intros p [<-|Hp]; auto.
Qed.

Lemma entries_of_app (c : cell) (a b : list (cell * nat)) :
  entries_of c (a ++ b) = entries_of c a ++ entries_of c b.
Proof. apply filter_app. Qed.

Lemma entries_of_mid (c : cell) (pre post : list (cell * nat)) (k : cell) (m : nat) :
  entries_of c (pre ++ (k, m) :: post)
  = entries_of c pre ++ (if Pandas.cell_eqb c k then [(k, m)] else []) ++ entries_of c post.
Proof.
  rewrite entries_of_app. f_equal. unfold entries_of. simpl.
  now destruct (Pandas.cell_eqb c k).
Qed.

(** What one more occurrence of [c] does to the entries of a value [c']. *)
Lemma bump_entries (c c' : cell) (acc : list (cell * nat)) :
  List.length (entries_of c' acc) <= 1 ->
  list_sum (map snd (entries_of c' (Pandas.bump c acc)))
  = list_sum (map snd (entries_of c' acc)) + (if Pandas.cell_eqb c' c then 1 else 0) /\
  List.length (entries_of c' (Pandas.bump c acc)) <= 1.
Proof.
  intros H1.
  destruct (bump_spec c acc) as [(k & n & pre & post & -> & Hk & ->)|(Hnone & ->)].
  - rewrite !entries_of_mid in *. rewrite (cell_eqb_congr c k c' Hk).
    destruct (Pandas.cell_eqb c' k);
      rewrite ?map_app, ?list_sum_app, ?length_app in *; simpl in *; split; lia.
  - rewrite entries_of_app. replace (entries_of c' [(c, 1)])
      with (if Pandas.cell_eqb c' c then [(c, 1)] else [])
      by (unfold entries_of; simpl; now destruct (Pandas.cell_eqb c' c)).
    destruct (Pandas.cell_eqb c' c) eqn:E.
    + assert (Hnil : entries_of c' acc = []).
      { apply filter_none. intros p Hp.
        rewrite cell_eqb_sym, (cell_eqb_congr c' c (fst p) E), cell_eqb_sym.
        now apply Hnone. }
      rewrite Hnil. simpl. split; lia.
    + rewrite app_nil_r. split; [lia | exact H1].
Qed.

Lemma bump_keys (c : cell) (acc : list (cell * nat)) :
  c <> NA ->
  (forall k n, In (k, n) acc -> k <> NA /\ 0 < n) ->
  forall k n, In (k, n) (Pandas.bump c acc) -> k <> NA /\ 0 < n.
Proof.
  intros Hc Hacc k n Hin.
  destruct (bump_spec c acc) as [(k' & n' & pre & post & -> & Hk & Hb)|(_ & Hb)];
    rewrite Hb in Hin; apply in_app_or in Hin.
  - destruct Hin as [Hin|[Heq|Hin]].
    + apply (Hacc k n). apply in_or_app. now left.
    + inversion Heq. subst. split; [|lia].
      apply (Hacc k n'). apply in_or_app. right. now left.
    + apply (Hacc k n). apply in_or_app. right. now right.
  - destruct Hin as [Hin|[Heq|[]]]; [now apply Hacc|].
    inversion Heq. subst. split; [exact Hc | lia].
Qed.

Lemma occurrences_app (c : cell) (a b : list cell) :
  occurrences c (a ++ b) = occurrences c a + occurrences c b.
Proof. unfold occurrences. now rewrite filter_app, length_app. Qed.

(** The table of counts after the cells [s], from a table that is right for
    the cells [seen]. *)
Lemma tally_invariant (s seen : list cell) (acc : list (cell * nat)) :
  (forall c, c <> NA -> list_sum (map snd (entries_of c acc)) = occurrences c seen) ->
  (forall c, List.length (entries_of c acc) <= 1) ->
  (forall k n, In (k, n) acc -> k <> NA /\ 0 < n) ->
  let acc' := fold_left (fun acc c => if Pandas.isna c then acc else Pandas.bump c acc) s acc in
  (forall c, c <> NA -> list_sum (map snd (entries_of c acc')) = occurrences c (seen ++ s)) /\
  (forall c, List.length (entries_of c acc') <= 1) /\
  (forall k n, In (k, n) acc' -> k <> NA /\ 0 < n).
Proof.
  revert seen acc. induction s as [|x s IH]; intros seen acc H1 H2 H3; simpl.
  - rewrite app_nil_r. auto.
  - replace (seen ++ x :: s) with ((seen ++ [x]) ++ s) by (now rewrite <- app_assoc).
    destruct x as [| q | t]; simpl.
    + apply IH; auto. intros c Hc. rewrite occurrences_app, H1 by exact Hc.
      replace (occurrences c [NA]) with 0; [lia|].
      unfold occurrences. simpl. destruct c; try reflexivity. contradiction.
    + apply IH.
      * intros c Hc. rewrite occurrences_app, <- H1 by exact Hc.
        rewrite (proj1 (bump_entries (Num q) c acc (H2 c))).
        unfold occurrences. simpl. now destruct (Pandas.cell_eqb c (Num q)).
      * intros c. apply (bump_entries (Num q) c acc (H2 c)).
      * apply bump_keys; [discriminate | exact H3].
    + apply IH.
      * intros c Hc. rewrite occurrences_app, <- H1 by exact Hc.
        rewrite (proj1 (bump_entries (Text t) c acc (H2 c))).
        unfold occurrences. simpl. now destruct (Pandas.cell_eqb c (Text t)).
      * intros c. apply (bump_entries (Text t) c acc (H2 c)).
      * apply bump_keys; [discriminate | exact H3].
Qed.

(** What [value_counts] gives for a column. *)
Lemma value_counts_spec (s : list cell) :
  (forall k n, In (k, n) (Pandas.value_counts s) ->
               k <> NA /\ 0 < n /\
               n = List.length (filter (Pandas.cell_eqb k) s)) /\
  (forall c, In c s -> c <> NA ->
             exists k n, In (k, n) (Pandas.value_counts s) /\ Pandas.cell_eqb c k = true) /\
  (forall c, List.length
               (filter (fun p => Pandas.cell_eqb c (fst p)) (Pandas.value_counts s)) <= 1) /\
  StronglySorted (fun p q : cell * nat => snd q <= snd p) (Pandas.value_counts s).
Proof.
  destruct (tally_invariant s [] []) as (T1 & T2 & T3); simpl.
  { intros c _. reflexivity. }
  { intros c. simpl. lia. }
  { intros k n []. }
  fold (Pandas.tally s) in T1, T2, T3. simpl in T1.
  assert (Hperm : Permutation (Pandas.value_counts s) (Pandas.tally s))
    by apply sort_desc_perm.
  assert (V1 : forall c, c <> NA ->
             list_sum (map snd (entries_of c (Pandas.value_counts s))) = occurrences c s).
  { intros c Hc. rewrite <- (T1 c Hc). apply list_sum_perm, Permutation_map.
    unfold entries_of. now apply filter_perm. }
  assert (V2 : forall c, List.length (entries_of c (Pandas.value_counts s)) <= 1).
  { intros c. unfold entries_of.
    rewrite (Permutation_length (filter_perm _ _ _ Hperm)). apply T2. }
  assert (V3 : forall k n, In (k, n) (Pandas.value_counts s) -> k <> NA /\ 0 < n).
  { intros k n Hin. apply T3. exact (Permutation_in _ Hperm Hin). }
  split; [|split; [|split]].
  - intros k n Hin. destruct (V3 k n Hin) as (Hk & Hn).
    split; [exact Hk|]. split; [exact Hn|].
    assert (He : In (k, n) (entries_of k (Pandas.value_counts s))).
    { apply filter_In. split; [exact Hin | apply cell_eqb_refl]. }
    specialize (V1 k Hk). specialize (V2 k).
    destruct (entries_of k (Pandas.value_counts s)) as [|p [|p' rest]];
      simpl in *; [contradiction | | lia].
    destruct He as [->|[]]. simpl in V1. unfold occurrences in V1. lia.
  - intros c Hc Hna. specialize (V1 c Hna).
    assert (Hpos : 0 < occurrences c s).
    { unfold occurrences.
      assert (In c (filter (Pandas.cell_eqb c) s))
        by (apply filter_In; split; [exact Hc | apply cell_eqb_refl]).
      destruct (filter (Pandas.cell_eqb c) s); [contradiction | simpl; lia]. }
    destruct (entries_of c (Pandas.value_counts s)) as [|[k n] rest] eqn:E;
      [simpl in V1; lia|].
    assert (Hin : In (k, n) (entries_of c (Pandas.value_counts s)))
      by (rewrite E; now left).
    apply filter_In in Hin. exists k, n. exact Hin.
  - exact V2.
  - unfold Pandas.value_counts.
    eapply strongly_sorted_impl; [|apply sort_desc_sorted].
    intros a b. unfold ge_key. lia.
Qed.

(** X14. The distribution that the aggregator returns is empty for a frame
    without a Type column; otherwise its keys are the values of that
    column that are not blank, each value under one key only, the count of
    a key is the number of records that hold its value, at least 1, and
    the entries come in descending order of count. *)
Theorem statistics_distribution_counts (df : DataFrame) (st : Stats) :
  Utils.calculate_statistics df = inr st ->
  match Pandas.col_index "Type" (df_columns df) with
  | None => st_equipment_distribution st = []
  | Some i =>
      (forall k n, In (k, n) (st_equipment_distribution st) ->
                   k <> NA /\ 0 < n /\
                   n = List.length (filter (Pandas.cell_eqb k) (Pandas.series i df))) /\
      (forall c, In c (Pandas.series i df) -> c <> NA ->
                 exists k n, In (k, n) (st_equipment_distribution st) /\
                             Pandas.cell_eqb c k = true) /\
      (forall c, List.length
                   (filter (fun p => Pandas.cell_eqb c (fst p))
                           (st_equipment_distribution st)) <= 1) /\
      StronglySorted (fun p q : cell * nat => snd q <= snd p)
                     (st_equipment_distribution st)
  end.
Proof.
  unfold Utils.calculate_statistics, rbind. intros H.
  destruct (Utils.avg_of df "Flowrate") as [e|a1]; [discriminate|].
  destruct (Utils.avg_of df "Pressure") as [e|a2]; [discriminate|].
  destruct (Utils.avg_of df "Temperature") as [e|a3]; [discriminate|].
  inversion H as [Hst]. cbn [st_equipment_distribution].
  destruct (Pandas.col_index "Type" (df_columns df)) as [i|];
    [apply value_counts_spec | reflexivity].
Qed.

Lemma statistics_distribution_counts_witness :
  exists st,
    Utils.calculate_statistics Samples.no_temperature = inr st /\
    In (Text "Pump", 2) (st_equipment_distribution st) /\
    forall k n, In (k, n) (st_equipment_distribution st) ->
                n = List.length
                      (filter (Pandas.cell_eqb k)
                              (Pandas.series 1 Samples.no_temperature)).
Proof.
  destruct (Utils.calculate_statistics Samples.no_temperature) as [e|st] eqn:E.
  - exfalso. vm_compute in E. discriminate.
  - exists st. split; [reflexivity|].
    split; [vm_compute in E; inversion E; simpl; auto|].
    pose proof (statistics_distribution_counts Samples.no_temperature st E) as H.
    change (Pandas.col_index "Type" (df_columns Samples.no_temperature))
      with (Some 1) in H.
    cbv beta iota in H. destruct H as (H & _).
    intros k n Hin. apply (H k n Hin).
Defined.

(** ** The charts *)

Lemma chart_getitem_in (d : list (string * nat)) (k : string) (v : nat) :
  NoDup (map fst d) -> In (k, v) d -> Charts.getitem d k = inr v.
Proof.
  induction d as [|[k' v'] d IH]; simpl; [contradiction|].
  intros Hnd [Heq|Hin]; inversion Hnd as [|? ? Hnotin Hnd']; subst.
  - inversion Heq. subst. now rewrite String.eqb_refl.
  - destruct (String.eqb_spec k k') as [->|_]; [|now apply IH].
    exfalso. apply Hnotin. apply in_map_iff. now exists (k', v).
Qed.

Lemma chart_getitems_items (d items : list (string * nat)) :
  NoDup (map fst d) -> (forall p, In p items -> In p d) ->
  Charts.getitems d (map fst items) = inr (map snd items).
Proof.
  intros Hnd. induction items as [|[k v] items IH]; intros Hsub; simpl; [reflexivity|].
  rewrite (chart_getitem_in d k v Hnd) by (apply Hsub; now left). simpl.
  rewrite IH by (intros p Hp; apply Hsub; now right). reflexivity.
Qed.

Lemma py_max_bound (values : list nat) (v : nat) :
  In v values -> v <= Charts.py_max values.
Proof.
  induction values as [|x values IH]; simpl; [contradiction|].
  intros [->|Hin]; [apply Nat.le_max_l|].
  specialize (IH Hin). lia.
Qed.

Lemma firstn_subset {A : Type} (n : nat) (l : list A) (x : A) :
  In x (firstn n l) -> In x l.
Proof.
  intros H. rewrite <- (firstn_skipn n l). apply in_or_app. now left.
Qed.

Lemma bar_axis_above (values : list nat) (v : nat) :
  In v values ->
  (inject_Z (Z.of_nat v) <=
   match values with
   | [] => 10
   | _ => inject_Z (Z.of_nat (Charts.py_max values)) * (12 # 10)
   end)%Q.
Proof.
  intros Hv. pose proof (py_max_bound _ v Hv) as Hle.
  destruct values as [|x xs]; [contradiction|].
  revert Hle. generalize (Charts.py_max (x :: xs)). intros m Hle.
  unfold Qle, Qmult. simpl. lia.
Qed.

(** X15. For a distribution, a dictionary whose keys are distinct, the bar
    chart of the report shows its first 10 entries in their order, and the
    pie chart its first 8: names and values are those of the entries, the
    value axis of the bar chart starts at 0 and ends above every bar (at 10
    when there is no bar), and the pie chart colours as many slices as it
    has.  Neither function raises. *)
Theorem charts_show_first_entries (data_dict : list (string * nat)) :
  NoDup (map fst data_dict) ->
  (exists chart,
      Charts.create_bar_chart data_dict = inr chart /\
      Charts.categoryNames chart = map fst (firstn 10 data_dict) /\
      Charts.bar_data chart = map snd (firstn 10 data_dict) /\
      List.length (Charts.bar_data chart) = Nat.min 10 (List.length data_dict) /\
      (Charts.valueMin chart == 0)%Q /\
      (forall v, In v (Charts.bar_data chart) ->
                 (inject_Z (Z.of_nat v) <= Charts.valueMax chart)%Q) /\
      (data_dict = [] -> (Charts.valueMax chart == 10)%Q)) /\
  (exists pie,
      Charts.create_pie_chart data_dict = inr pie /\
      Charts.pie_labels pie = map fst (firstn 8 data_dict) /\
      Charts.pie_data pie = map snd (firstn 8 data_dict) /\
      List.length (Charts.pie_data pie) = Nat.min 8 (List.length data_dict) /\
      List.length (Charts.slice_colors pie) = List.length (Charts.pie_data pie)).
Proof.
  intros Hnd. split.
  - unfold Charts.create_bar_chart.
    rewrite firstn_map.
    rewrite (chart_getitems_items data_dict (firstn 10 data_dict) Hnd)
      by (intros p; apply firstn_subset).
    unfold rbind. eexists. split; [reflexivity|].
    cbn [Charts.categoryNames Charts.bar_data Charts.valueMin Charts.valueMax].
    split; [reflexivity|]. split; [reflexivity|].
    split; [rewrite length_map; apply length_firstn|].
    split; [reflexivity|]. split.
    + intros v Hv. now apply bar_axis_above.
    + intros ->. reflexivity.
  - unfold Charts.create_pie_chart.
    rewrite firstn_map.
    rewrite (chart_getitems_items data_dict (firstn 8 data_dict) Hnd)
      by (intros p; apply firstn_subset).
    unfold rbind. eexists. split; [reflexivity|].
    cbn [Charts.pie_labels Charts.pie_data Charts.slice_colors].
    split; [reflexivity|]. split; [reflexivity|].
    split; [rewrite length_map; apply length_firstn|].
    rewrite length_firstn, length_map, length_firstn.
    change (List.length Charts.colors_list) with 8. lia.
Qed.

Lemma charts_show_first_entries_witness :
  exists chart,
    Charts.create_bar_chart [("Pump", 3); ("Valve", 1)] = inr chart /\
    Charts.categoryNames chart = ["Pump"; "Valve"] /\
    Charts.bar_data chart = [3; 1].
Proof.
  destruct (proj1 (charts_show_first_entries [("Pump", 3); ("Valve", 1)]
                     ltac:(simpl; repeat constructor; simpl; intuition discriminate)))
    as (chart & Hc & Hn & Hd & _).
  exists chart. split; [exact Hc|]. split; [exact Hn | exact Hd].
Defined.

(** ** The preview of the report *)

Lemma substring_length (n : nat) (s : string) : String.length (substring 0 n s) <= n.
Proof.
  revert s. induction n as [|n IH]; intros [|c s]; simpl; try lia.
  specialize (IH s). lia.
Qed.

Lemma number_field_printable (key : string) (record : list (string * cell)) :
  (record_get key record = None \/ exists q, record_get key record = Some (Num q)) <->
  exists text, number_field key record = inr text.
Proof.
  unfold number_field. destruct (record_get key record) as [[| q | t]|]; split;
    try (intros [H|(q' & H)]; discriminate);
    try (intros (text & H); discriminate);
    eauto.
Qed.

Lemma preview_row_printable (number_str : Q -> string) (record : list (string * cell)) :
  printable record <->
  exists flowrate pressure temperature,
    preview_row number_str record
    = inr [text_field number_str 20 "Equipment_Name" record;
           text_field number_str 15 "Type" record;
           flowrate; pressure; temperature].
Proof.
  unfold preview_row. split.
  - intros H.
    destruct (proj1 (number_field_printable "Flowrate" record)) as (f & ->);
      [apply H; simpl; auto|].
    destruct (proj1 (number_field_printable "Pressure" record)) as (p & ->);
      [apply H; simpl; auto|].
    destruct (proj1 (number_field_printable "Temperature" record)) as (t & ->);
      [apply H; simpl; auto|].
    simpl. eauto.
  - intros (f & p & t & H) key Hkey.
    apply number_field_printable.
    destruct (number_field "Flowrate" record) as [e|f'] eqn:Hf; [discriminate|].
    destruct (number_field "Pressure" record) as [e|p'] eqn:Hp; [discriminate|].
    destruct (number_field "Temperature" record) as [e|t'] eqn:Ht; [discriminate|].
    destruct Hkey as [<-|[<-|[<-|[]]]]; eauto.
Qed.

Lemma preview_rows_printable (number_str : Q -> string)
      (data_list : list (list (string * cell))) :
  (forall record, In record data_list -> printable record) <->
  exists rows, preview_rows number_str data_list = inr rows.
Proof.
  induction data_list as [|record rest IH]; simpl.
  - split; [eauto | intros _ record []].
  - split.
    + intros H.
      destruct (proj1 (preview_row_printable number_str record)) as (f & p & t & ->);
        [apply H; now left|].
      destruct (proj1 IH) as (rows & ->); [intros r Hr; apply H; now right|].
      simpl. eauto.
    + intros (rows & H) r [<-|Hr].
      * apply (preview_row_printable number_str).
        destruct (preview_row number_str record) as [e|row] eqn:Hrow; [discriminate|].
        unfold preview_row in Hrow |- *.
        destruct (number_field "Flowrate" record); [discriminate|].
        destruct (number_field "Pressure" record); [discriminate|].
        destruct (number_field "Temperature" record); [discriminate|].
        simpl. eauto.
      * apply (proj2 IH); [|exact Hr].
        destruct (preview_row number_str record); [discriminate|].
        destruct (preview_rows number_str rest); [discriminate | eauto].
Qed.

Lemma preview_rows_shape (number_str : Q -> string)
      (data_list : list (list (string * cell))) (rows : list (list string)) :
  preview_rows number_str data_list = inr rows ->
  List.length rows = List.length data_list /\
  Forall (fun row => exists name type flowrate pressure temperature,
                       row = [name; type; flowrate; pressure; temperature] /\
                       String.length name <= 20 /\ String.length type <= 15) rows.
Proof.
  revert rows. induction data_list as [|record rest IH]; intros rows; simpl.
  - intros H. inversion H. split; [reflexivity | constructor].
  - destruct (preview_row number_str record) as [e|row] eqn:Hrow; [discriminate|].
    destruct (preview_rows number_str rest) as [e|rows'] eqn:Hrest; [discriminate|].
    simpl. intros H. inversion H. subst rows.
    destruct (IH rows' eq_refl) as (Hlen & Hall).
    split; [simpl; congruence|]. constructor; [|exact Hall].
    unfold preview_row in Hrow.
    destruct (number_field "Flowrate" record) as [|f]; [discriminate|].
    destruct (number_field "Pressure" record) as [|p]; [discriminate|].
    destruct (number_field "Temperature" record) as [|t]; [discriminate|].
    simpl in Hrow. inversion Hrow.
    eexists _, _, f, p, t. split; [reflexivity|].
    unfold text_field, PyStr.take. split; apply substring_length.
Qed.

(** X16. The preview of the report renders exactly when, in each of the
    first 10 records, flow rate, pressure and temperature are numbers or
    are absent: a null or a text there makes the report fail.  When it
    renders it has one row for each of the first 10 records, of five
    cells, with a name of at most 20 characters and a type of at most
    15. *)
Theorem preview_renders_iff (number_str : Q -> string) (dataset : Dataset) :
  ((forall record, In record (firstn 10 (data_json dataset)) -> printable record) <->
   exists rows,
     preview_data number_str dataset
     = inr (["Equipment"; "Type"; "Flowrate"; "Pressure"; "Temperature"] :: rows)) /\
  (forall table,
      preview_data number_str dataset = inr table ->
      exists rows,
        table = ["Equipment"; "Type"; "Flowrate"; "Pressure"; "Temperature"] :: rows /\
        List.length rows = Nat.min 10 (List.length (data_json dataset)) /\
        Forall (fun row => exists name type flowrate pressure temperature,
                             row = [name; type; flowrate; pressure; temperature] /\
                             String.length name <= 20 /\ String.length type <= 15) rows).
Proof.
  unfold preview_data. split.
  - rewrite (preview_rows_printable number_str). split.
    + intros (rows & ->). simpl. eauto.
    + intros (rows & H).
      destruct (preview_rows number_str (firstn 10 (data_json dataset))); [discriminate|].
      eauto.
  - intros table H.
    destruct (preview_rows number_str (firstn 10 (data_json dataset))) as [e|rows] eqn:Hr;
      [discriminate|].
    simpl in H. inversion H. exists rows. split; [reflexivity|].
    destruct (preview_rows_shape _ _ _ Hr) as (Hlen & Hall).
    split; [|exact Hall]. rewrite Hlen. apply length_firstn.
Qed.

(** ** The report of a fresh upload *)






(** ** The summary of the statistics *)

Lemma round_half_even_near (q : Q) :
  (Qabs (inject_Z (PyFloat.round_half_even q) - q) <= 1 # 2)%Q.
Proof.
  destruct q as [n d]. unfold PyFloat.round_half_even. simpl Qnum. simpl Qden.
  pose proof (Z.div_mod n (Z.pos d) ltac:(lia)) as Hdm.
  pose proof (Z.mod_pos_bound n (Z.pos d) ltac:(lia)) as Hr.
  set (fl := (n / Z.pos d)%Z) in *. set (r := (n mod Z.pos d)%Z) in *.
  apply (proj2 (Qabs_Qle_condition _ _)).
  destruct (Z.ltb_spec (2 * r) (Z.pos d)) as [H1|H1];
    [|destruct (Z.ltb_spec (Z.pos d) (2 * r)) as [H2|H2];
      [|destruct (Z.even fl)]];
    unfold Qle, Qminus, Qplus, Qopp, inject_Z; simpl; split; nia.
Qed.

Lemma round2_near (q : Q) :
  exists r n,
    PyFloat.round2 (Fin q) = Fin r /\
    (r == inject_Z n / 100)%Q /\ (Qabs (r - q) <= 1 # 200)%Q.
Proof.
  exists (inject_Z (PyFloat.round_half_even (q * 100)) / 100)%Q,
         (PyFloat.round_half_even (q * 100)).
  split; [reflexivity|]. split; [reflexivity|].
  pose proof (round_half_even_near (q * 100)) as H.
  apply (proj1 (Qabs_Qle_condition _ _)) in H.
  apply (proj2 (Qabs_Qle_condition _ _)).
  destruct H as (H1 & H2).
  set (z := inject_Z (PyFloat.round_half_even (q * 100))) in *.
  unfold Qdiv. change (/ 100)%Q with (1 # 100)%Q.
  split; lra.
Qed.

Lemma rounded_shown (stored : option pyfloat) :
  shown_average stored (Models.rounded stored).
Proof.
  unfold shown_average, Models.rounded, truthy_opt.
  destruct stored as [[|q]|]; simpl; try reflexivity.
  destruct (Qeq_bool q 0); simpl; [reflexivity|].
  destruct (round2_near q) as (r & n & Hr & Hn & Hq).
  simpl in Hr. inversion Hr. subst r. eauto.
Qed.

(** X18. The summary of the statistics, which the detail and the statistics
    endpoints answer, keeps the total and the distribution and shows each
    average to the hundredth, at most half a hundredth away from the stored
    one; an average that is stored as 0.0 is shown as null, as a missing
    average is. *)
Theorem statistics_summary_rounds (self : Dataset) :
  sm_total_equipment (Models.get_statistics_summary self) = total_equipment self /\
  sm_equipment_distribution (Models.get_statistics_summary self)
  = equipment_distribution self /\
  shown_average (avg_flowrate self)
                (sm_avg_flowrate (Models.get_statistics_summary self)) /\
  shown_average (avg_pressure self)
                (sm_avg_pressure (Models.get_statistics_summary self)) /\
  shown_average (avg_temperature self)
                (sm_avg_temperature (Models.get_statistics_summary self)).
Proof.
  unfold Models.get_statistics_summary. simpl.
  repeat split; apply rounded_shown.
Qed.
